(** * hikaru.watch: Watcher and MultiplexingWatcher

    A shallow embedding of [src/hikaru/watch.py].  Python objects that are
    shared by reference (the Watchers held by a MultiplexingWatcher and by
    its worker threads) live in a heap indexed by object identity; the
    generators [Watcher.stream] and [MultiplexingWatcher.stream] are run
    against an explicit script of what the transport delivers and of what
    other threads (or the consumer of the generator) do while the generator
    is suspended. *)

From Stdlib Require Import ZArith String Ascii List Bool Lia.
From Stdlib Require Import DecimalString DecimalZ DecimalPos.
From stdpp Require Import base option gmap strings list fin_maps.

Import ListNotations.
Local Open Scope Z_scope.
Local Open Scope string_scope.
Local Open Scope list_scope.

(** ** Python values, exceptions, [str] and [int] *)

Module Py.

(** The values that reach the code under study: [None], booleans, integers
    and strings. *)
Inductive PyVal : Type :=
  | PyNone
  | PyBool (b : bool)
  | PyInt (z : Z)
  | PyStr (s : string).

(** Exceptions.  All of them derive from [Exception]; [ApiException] is the
    transport's structured error with its status code and reason text. *)
Inductive PyExn : Type :=
  | ApiException (status : Z) (reason : string)
  | RuntimeError (msg : string)
  | TypeError (msg : string)
  | ValueError (msg : string)
  | AttributeError (msg : string)
  | OtherException (name : string).

Inductive PyResult (A : Type) : Type :=
  | Ok (a : A)
  | Raise (e : PyExn).
Arguments Ok {A} a.
Arguments Raise {A} e.

(** [x is True] *)
Definition is_True (v : PyVal) : bool :=
  match v with
  | PyBool true => true
  | _ => false
  end.

(** [str(z)] for an integer: decimal digits, a leading [-] when negative. *)
Definition str_int (z : Z) : string := NilZero.string_of_int (Z.to_int z).

(** [str(v)] for a value other than [None] (for [None] it is ["None"]). *)
Definition str (v : PyVal) : string :=
  match v with
  | PyNone => "None"
  | PyBool true => "True"
  | PyBool false => "False"
  | PyInt z => str_int z
  | PyStr s => s
  end.

Definition is_digit (c : ascii) : bool :=
  let n := nat_of_ascii c in (Nat.leb 48 n && Nat.leb n 57)%bool.

Definition digit_val (c : ascii) : Z := Z.of_nat (nat_of_ascii c) - 48.

(** ASCII characters for which [str.isspace] holds. *)
Definition is_space (c : ascii) : bool :=
  let n := nat_of_ascii c in
  ((Nat.leb 9 n && Nat.leb n 13) || (Nat.leb 28 n && Nat.leb n 32))%bool.

Fixpoint lstrip (s : string) : string :=
  match s with
  | String c r => if is_space c then lstrip r else s
  | EmptyString => EmptyString
  end.

Fixpoint rstrip (s : string) : string :=
  match s with
  | String c r =>
      match rstrip r with
      | EmptyString => if is_space c then EmptyString else String c EmptyString
      | r' => String c r'
      end
  | EmptyString => EmptyString
  end.

Definition strip (s : string) : string := rstrip (lstrip s).

(** The digits of an integer literal after its first digit: digits, with
    single underscores allowed between two digits. *)
Fixpoint int_digits (s : string) (acc : Z) : option Z :=
  match s with
  | EmptyString => Some acc
  | String c r =>
      if is_digit c then int_digits r (10 * acc + digit_val c)
      else if Ascii.eqb c "_" then
        match r with
        | String d r' =>
            if is_digit d then int_digits r' (10 * acc + digit_val d) else None
        | EmptyString => None
        end
      else None
  end.

Definition int_unsigned (s : string) : option Z :=
  match s with
  | String d r => if is_digit d then int_digits r (digit_val d) else None
  | EmptyString => None
  end.

(** [int(s)] for an ASCII string [s], base 10: surrounding whitespace is
    stripped, one sign is allowed; [None] stands for [ValueError]. *)
Definition int (s : string) : option Z :=
  match strip s with
  | String c r =>
      if Ascii.eqb c "-" then Z.opp <$> int_unsigned r
      else if Ascii.eqb c "+" then int_unsigned r
      else int_unsigned (String c r)
  | EmptyString => None
  end.

(** Value of a digit sequence read left to right from accumulator [acc]. *)
Fixpoint uint_val (d : Decimal.uint) (acc : Z) : Z :=
  match d with
  | Decimal.Nil => acc
  | Decimal.D0 l => uint_val l (10 * acc)
  | Decimal.D1 l => uint_val l (10 * acc + 1)
  | Decimal.D2 l => uint_val l (10 * acc + 2)
  | Decimal.D3 l => uint_val l (10 * acc + 3)
  | Decimal.D4 l => uint_val l (10 * acc + 4)
  | Decimal.D5 l => uint_val l (10 * acc + 5)
  | Decimal.D6 l => uint_val l (10 * acc + 6)
  | Decimal.D7 l => uint_val l (10 * acc + 7)
  | Decimal.D8 l => uint_val l (10 * acc + 8)
  | Decimal.D9 l => uint_val l (10 * acc + 9)
  end.

Definition all_chars (P : ascii -> bool) (s : string) : bool :=
  forallb P (list_ascii_of_string s).

End Py.

(** ** The regular expression [_rvre = re.compile(r'\(([0-9]+)\)')] *)

Module Re.
Import Py.

(** Longest prefix of digits, and what follows it ([[0-9]+] is greedy). *)
Fixpoint take_digits (s : string) : string * string :=
  match s with
  | String c r =>
      if is_digit c then
        let '(d, t) := take_digits r in (String c d, t)
      else (EmptyString, s)
  | EmptyString => (EmptyString, EmptyString)
  end.

(** A match of the pattern starting at the first character; the result is
    [group(1)].  After a maximal run of digits only [)] can complete the
    match, so giving digits back never helps. *)
Definition match_here (s : string) : option string :=
  match s with
  | String c r =>
      if Ascii.eqb c "(" then
        match take_digits r with
        | (String d ds, String c' _) =>
            if Ascii.eqb c' ")" then Some (String d ds) else None
        | _ => None
        end
      else None
  | EmptyString => None
  end.

(** [_rvre.search(s)]: the leftmost match; [None] when there is none. *)
Fixpoint rvre_search (s : string) : option string :=
  match match_here s with
  | Some g => Some g
  | None =>
      match s with
      | String _ r => rvre_search r
      | EmptyString => None
      end
  end.

(** [g] occurs in [s] as a parenthesized number. *)
Definition paren_number (g s : string) : Prop :=
  exists pre post,
    s = pre +:+ String "(" (g +:+ String ")" post) /\
    g <> EmptyString /\ all_chars is_digit g = true.

Definition has_paren_number (s : string) : Prop := exists g, paren_number g s.

(** The character [c] does not occur in [s]. *)
Definition lacks (c : ascii) (s : string) : bool :=
  all_chars (fun x => negb (Ascii.eqb x c)) s.

End Re.

(** ** Watcher: configuration, cursor and running flag *)

Module W.
Import Py Re.

(** [hikaru.meta.WatcherDescriptor]: where the "open a watch" operation of a
    kind lives. *)
Record WatcherDescriptor : Type := {
  pkgname : string;
  modname : string;
  clsname : string;
  methname : string
}.

(** The two class attributes that say which watch variants a class has. *)
Record WatchSupport : Type := {
  _namespaced_watcher : option WatcherDescriptor;
  _watcher : option WatcherDescriptor
}.

(** A class object handed to [Watcher(cls, ...)].  [cls_id] stands for the
    identity of the class object (it is the key of the coordinator's
    dictionary), [_watcher_cls] is the listing class the watch is made on,
    when there is one, given by the attributes read from it. *)
Record PyClass : Type := {
  cls_id : string;
  __name__ : string;
  is_HikaruDocumentBase : bool;
  _watcher_cls : option WatchSupport;
  cls_support : WatchSupport
}.

Definition ApiKey : Type := string * string * string.

(** An API class of the client library, known by where it was imported
    from, and the bound method [getattr(apicls(api_client=client), name)]. *)
Record ApiClass : Type := { api_key : ApiKey }.

Record BoundMethod : Type := {
  meth_class : ApiClass;
  meth_client : option nat;
  meth_name : string
}.

(** [_get_api_class(wd)], with the module-level [_api_class_cache] passed
    explicitly. *)
Definition _get_api_class (cache : gmap ApiKey ApiClass)
    (wd : WatcherDescriptor) : ApiClass * gmap ApiKey ApiClass :=
  let key := (pkgname wd, modname wd, clsname wd) in
  match cache !! key with
  | Some cls => (cls, cache)
  | None =>
      let cls := {| api_key := key |} in
      (cls, <[key := cls]> cache)
  end.

(** [kubernetes.watch.Watch]: only its stop flag is visible from here. *)
Record K8sWatch : Type := { _stop : bool }.

Definition _k8s_watch_factory : K8sWatch := {| _stop := false |}.

Definition K8sWatch_stop (k : K8sWatch) : K8sWatch := {| _stop := true |}.

(** [self.kwargs]; the key ['namespace'] is present exactly when
    [namespace] is [Some _]. *)
Record Kwargs : Type := {
  allow_watch_bookmarks : option bool;
  field_selector : option string;
  label_selector : option string;
  resource_version : option string;
  timeout_seconds : option Z;
  namespace : option string
}.

Record Watcher : Type := {
  _run : bool;
  wd : WatcherDescriptor;
  cls : PyClass;
  kwargs : Kwargs;
  client : option nat;
  k8s_watcher : option K8sWatch;
  meth : BoundMethod;
  highest_resource_version : Z
}.

Definition _starting_resource_version : Z := -1.

(** Truth value of an optional string: [None] and [""] are false. *)
Definition truthy (o : option string) : bool :=
  match o with
  | Some (String _ _) => true
  | _ => false
  end.

(** The class whose watch attributes are consulted. *)
Definition watcher_cls (c : PyClass) : WatchSupport :=
  match _watcher_cls c with
  | Some wc => wc
  | None => cls_support c
  end.

(** [Watcher.__init__] *)
Definition __init__ (cache : gmap ApiKey ApiClass) (c : PyClass)
    (ns : option string) (bookmarks : option bool)
    (fsel lsel : option string) (rv : PyVal) (timeout : option Z)
    (cl : option nat) : PyResult (Watcher * gmap ApiKey ApiClass) :=
  if negb (is_HikaruDocumentBase c) then
    Raise (TypeError "cls must be a subclass of HikaruDocumentBase")
  else
    let wc := watcher_cls c in
    let chosen :=
      if truthy ns then
        match _namespaced_watcher wc with
        | None => Raise (TypeError (__name__ c +:+ " has no namespaced watcher support"))
        | Some d => Ok d
        end
      else
        match _watcher wc with
        | None => Raise (TypeError (__name__ c +:+ " has no watcher support"))
        | Some d => Ok d
        end in
    match chosen with
    | Raise e => Raise e
    | Ok d =>
        let kw := {| allow_watch_bookmarks := bookmarks;
                     field_selector := fsel;
                     label_selector := lsel;
                     resource_version :=
                       match rv with
                       | PyNone => None
                       | _ => Some (str rv)
                       end;
                     timeout_seconds := timeout;
                     namespace := ns |} in
        let '(apicls, cache') := _get_api_class cache d in
        Ok ({| _run := false;
               wd := d;
               cls := c;
               kwargs := kw;
               client := cl;
               k8s_watcher := None;
               meth := {| meth_class := apicls;
                          meth_client := cl;
                          meth_name := methname d |};
               highest_resource_version := _starting_resource_version |},
            cache')
    end.

Definition set_run (b : bool) (w : Watcher) : Watcher :=
  {| _run := b; wd := wd w; cls := cls w; kwargs := kwargs w;
     client := client w; k8s_watcher := k8s_watcher w; meth := meth w;
     highest_resource_version := highest_resource_version w |}.

Definition set_k8s_watcher (k : option K8sWatch) (w : Watcher) : Watcher :=
  {| _run := _run w; wd := wd w; cls := cls w; kwargs := kwargs w;
     client := client w; k8s_watcher := k; meth := meth w;
     highest_resource_version := highest_resource_version w |}.

Definition set_highest (z : Z) (w : Watcher) : Watcher :=
  {| _run := _run w; wd := wd w; cls := cls w; kwargs := kwargs w;
     client := client w; k8s_watcher := k8s_watcher w; meth := meth w;
     highest_resource_version := z |}.

Definition kw_set_resource_version (s : string) (kw : Kwargs) : Kwargs :=
  {| allow_watch_bookmarks := allow_watch_bookmarks kw;
     field_selector := field_selector kw;
     label_selector := label_selector kw;
     resource_version := Some s;
     timeout_seconds := timeout_seconds kw;
     namespace := namespace kw |}.

Definition set_resource_version (s : string) (w : Watcher) : Watcher :=
  {| _run := _run w; wd := wd w; cls := cls w;
     kwargs := kw_set_resource_version s (kwargs w);
     client := client w; k8s_watcher := k8s_watcher w; meth := meth w;
     highest_resource_version := highest_resource_version w |}.

(** [Watcher.update_resource_version] *)
Definition update_resource_version (v : PyVal) (w : Watcher)
    : PyResult Watcher :=
  match v with
  | PyNone => Raise (RuntimeError "resource_version cannot be None")
  | _ => Ok (set_resource_version (str v) w)
  end.

(** [Watcher.current_resource_version] *)
Definition current_resource_version (w : Watcher) : option string :=
  resource_version (kwargs w).

(** [BaseWatcher.start], [BaseWatcher.isrunning] and [Watcher.stop] *)
Definition start (w : Watcher) : Watcher := set_run true w.

Definition isrunning (w : Watcher) : bool := _run w.

Definition stop (w : Watcher) : Watcher :=
  set_run false (set_k8s_watcher (K8sWatch_stop <$> k8s_watcher w) w).

(** Whether [c] is a kind that supports the variant the namespace argument
    asks for: a subclass of [HikaruDocumentBase] whose watch class has the
    namespaced watch when a (non-empty) namespace is given, the cluster-wide
    watch otherwise. *)
Definition supports_requested_variant (c : PyClass) (ns : option string)
    : bool :=
  is_HikaruDocumentBase c &&
  (if truthy ns then bool_decide (is_Some (_namespaced_watcher (watcher_cls c)))
   else bool_decide (is_Some (_watcher (watcher_cls c)))).

(** The heap's total lookup needs some Watcher to exist. *)
#[global] Instance Watcher_inhabited : Inhabited Watcher :=
  populate
    {| _run := false;
       wd := {| pkgname := ""; modname := ""; clsname := "";
              methname := "" |};
       cls := {| cls_id := ""; __name__ := "";
                   is_HikaruDocumentBase := true;
                   _watcher_cls := None;
                   cls_support := {| _namespaced_watcher := None;
                                   _watcher := None |} |};
       kwargs := {| allow_watch_bookmarks := None;
                      field_selector := None;
                      label_selector := None;
                      resource_version := None;
                      timeout_seconds := None;
                      namespace := None |};
       client := None;
       k8s_watcher := None;
       meth := {| meth_class := {| api_key := ("", "", "") |};
                    meth_client := None; meth_name := "" |};
       highest_resource_version := _starting_resource_version |}.

End W.

(** ** The coordinator and the shared state *)

Module Mux.
Import Py Re.

(** The typed resource a raw event is turned into (by [from_dict]); only
    the version tag in its metadata is read by the watch code. *)
Record ObjectMeta : Type := { resourceVersion : option string }.

Record HikaruDocumentBase : Type := {
  kind : string;
  metadata : option ObjectMeta
}.

(** A raw event of the transport: [e['type']] and the deserialized
    [e['object']]. *)
Record RawEvent : Type := {
  raw_type : string;
  raw_object : HikaruDocumentBase
}.

Record WatchEvent : Type := {
  etype : string;
  obj : HikaruDocumentBase
}.

(** [MultiplexingWatcher].  [watchers] is keyed by the identity of the
    member's class and holds references to Watcher objects; [started] lists
    the worker threads created by [_start_watcher], each named by the
    Watcher it runs.  The failure callback is fixed at construction and is a
    parameter of the worker below. *)
Record MultiplexingWatcher : Type := {
  _run : bool;
  watchers : gmap string nat;
  results_queue : list WatchEvent;
  manage_resource_version : option bool;
  quit_on_timeout : option bool;
  started : list nat
}.

(** The Watcher objects, by identity, and the one coordinator. *)
Record State : Type := {
  heap : gmap nat W.Watcher;
  mux : MultiplexingWatcher
}.

(** [MultiplexingWatcher.__init__] *)
Definition __init__ : MultiplexingWatcher :=
  {| _run := false; watchers := ∅; results_queue := [];
     manage_resource_version := None; quit_on_timeout := None;
     started := [] |}.

(** The Watcher object with identity [w]. *)
Definition watcher (st : State) (w : nat) : W.Watcher := heap st !!! w.

(** The highest version the Watcher object [w] has observed. *)
Definition highest (st : State) (w : nat) : Z :=
  W.highest_resource_version (watcher st w).

(** A method call on the Watcher object [w]. *)
Definition on_watcher (f : W.Watcher -> W.Watcher) (w : nat) (st : State)
    : State :=
  {| heap := <[w := f (watcher st w)]> (heap st); mux := mux st |}.

Definition on_mux (f : MultiplexingWatcher -> MultiplexingWatcher)
    (st : State) : State :=
  {| heap := heap st; mux := f (mux st) |}.

Definition set_run (b : bool) (m : MultiplexingWatcher) : MultiplexingWatcher :=
  {| _run := b; watchers := watchers m; results_queue := results_queue m;
     manage_resource_version := manage_resource_version m;
     quit_on_timeout := quit_on_timeout m; started := started m |}.

Definition set_watchers (ws : gmap string nat) (m : MultiplexingWatcher)
    : MultiplexingWatcher :=
  {| _run := _run m; watchers := ws; results_queue := results_queue m;
     manage_resource_version := manage_resource_version m;
     quit_on_timeout := quit_on_timeout m; started := started m |}.

Definition set_queue (q : list WatchEvent) (m : MultiplexingWatcher)
    : MultiplexingWatcher :=
  {| _run := _run m; watchers := watchers m; results_queue := q;
     manage_resource_version := manage_resource_version m;
     quit_on_timeout := quit_on_timeout m; started := started m |}.

Definition set_policy (manage quit : option bool) (m : MultiplexingWatcher)
    : MultiplexingWatcher :=
  {| _run := _run m; watchers := watchers m; results_queue := results_queue m;
     manage_resource_version := manage; quit_on_timeout := quit;
     started := started m |}.

Definition set_started (ts : list nat) (m : MultiplexingWatcher)
    : MultiplexingWatcher :=
  {| _run := _run m; watchers := watchers m; results_queue := results_queue m;
     manage_resource_version := manage_resource_version m;
     quit_on_timeout := quit_on_timeout m; started := ts |}.

(** [BaseWatcher.isrunning], [start] and [stop] on the coordinator. *)
Definition isrunning (st : State) : bool := _run (mux st).

Definition start (st : State) : State := on_mux (set_run true) st.

Definition base_stop (st : State) : State := on_mux (set_run false) st.

(** [results_queue.put(we)] *)
Definition put (we : WatchEvent) (st : State) : State :=
  on_mux (fun m => set_queue (results_queue m ++ [we]) m) st.

(** [_start_watcher]: a new thread that will run [_run_watcher(watcher)]. *)
Definition _start_watcher (w : nat) (st : State) : State :=
  on_mux (fun m => set_started (started m ++ [w]) m) st.

(** The dictionary key of a Watcher: [watcher.cls]. *)
Definition key_of (st : State) (w : nat) : string :=
  W.cls_id (W.cls (watcher st w)).

(** [MultiplexingWatcher.add_watcher] *)
Definition add_watcher (w : nat) (st : State) : State :=
  let k := key_of st w in
  let st1 :=
    match watchers (mux st) !! k with
    | Some current_watcher => on_watcher W.stop current_watcher st
    | None => st
    end in
  let st2 := on_mux (fun m => set_watchers (<[k := w]> (watchers m)) m) st1 in
  if isrunning st2 then _start_watcher w st2 else st2.

(** [MultiplexingWatcher.del_watcher]; a missing key is ignored. *)
Definition del_watcher (w : nat) (st : State) : State :=
  let st1 := on_watcher W.stop w st in
  on_mux (fun m => set_watchers (delete (key_of st1 w) (watchers m)) m) st1.

(** The Watchers of a snapshot of the dictionary: [dict(self.watchers).values()].
    (The order of a gmap's listing is not Python's insertion order; nothing
    below depends on the order.) *)
Definition members (st : State) : list nat :=
  (map_to_list (watchers (mux st))).*2.

(** The entries of the membership dictionary for one kind. *)
Definition entries_for (k : string) (st : State) : list (string * nat) :=
  filter (fun kw => kw.1 = k) (map_to_list (watchers (mux st))).

(** [MultiplexingWatcher.stop] *)
Definition stop (st : State) : State :=
  foldl (fun s w => on_watcher W.stop w s) (base_stop st) (members st).

(** What another thread, or the consumer of a generator, can do to the shared
    state while a generator is suspended. *)
Inductive Op : Type :=
  | WatcherStop (w : nat)
  | WatcherStart (w : nat)
  | WatcherUpdate (w : nat) (v : PyVal)
  | MuxStop
  | MuxStart
  | MuxAdd (w : nat)
  | MuxDel (w : nat)
  | QueuePut (we : WatchEvent).

(** [watcher.update_resource_version(v)] on the object [w]. *)
Definition update_resource_version (v : PyVal) (w : nat) (st : State)
    : PyResult State :=
  match W.update_resource_version v (watcher st w) with
  | Ok w' => Ok (on_watcher (fun _ => w') w st)
  | Raise e => Raise e
  end.

Definition apply_op (op : Op) (st : State) : State :=
  match op with
  | WatcherStop w => on_watcher W.stop w st
  | WatcherStart w => on_watcher W.start w st
  | WatcherUpdate w v =>
      match update_resource_version v w st with
      | Ok st' => st'
      | Raise _ => st
      end
  | MuxStop => stop st
  | MuxStart => start st
  | MuxAdd w => add_watcher w st
  | MuxDel w => del_watcher w st
  | QueuePut we => put we st
  end.

Definition apply_ops (ops : list Op) (st : State) : State :=
  foldl (fun s op => apply_op op s) st ops.

End Mux.

(** ** [Watcher.stream] *)

Module Stream.
Import Py Re Mux.

(** One step of the environment while the transport is open: it delivers a
    raw event (and, should that event be yielded, [at_yield] is what
    happens to the shared state before the generator is resumed), or some
    other party acts while the generator waits for the transport. *)
Inductive Item : Type :=
  | Ev (raw : RawEvent) (at_yield : list Op)
  | Env (op : Op).

(** How an opened transport ends once its items are consumed: the routine
    idle timeout, or an exception. *)
Inductive Ending : Type :=
  | Timeout
  | Fail (e : PyExn).

Record Response : Type := {
  items : list Item;
  ending : Ending
}.

Inductive Phase : Type := Priming | Main.

(** What a run of the generator shows: each opening of the transport, with
    the [kwargs] it was given and the highest version the Watcher had
    observed at that moment, and each yielded event. *)
Inductive Obs : Type :=
  | Open (ph : Phase) (kw : W.Kwargs) (highest : Z)
  | Yield (we : WatchEvent).

(** How the run ends: the generator returns, raises, or is still alive when
    the script is used up. *)
Inductive Outcome : Type :=
  | Returned
  | Raised (e : PyExn)
  | Pending.

Record Run : Type := {
  final : State;
  trace : list Obs;
  outcome : Outcome
}.

Definition emit (obs : list Obs) (r : Run) : Run :=
  {| final := final r; trace := obs ++ trace r; outcome := outcome r |}.

Inductive ForEnd : Type :=
  | ForDone
  | ForBreak
  | ForRaise (e : PyExn).

Inductive Next : Type :=
  | Continue (st : State)
  | Stop (st : State) (out : Outcome).

(** [int(o.metadata.resourceVersion)] *)
Definition event_version (o : HikaruDocumentBase) : PyResult Z :=
  match metadata o with
  | None => Raise (AttributeError "'NoneType' object has no attribute 'resourceVersion'")
  | Some m =>
      match resourceVersion m with
      | None => Raise (TypeError "int() argument must be a string, a bytes-like object or a real number, not 'NoneType'")
      | Some s =>
          match int s with
          | Some z => Ok z
          | None => Raise (ValueError "invalid literal for int() with base 10")
          end
      end
  end.

(** [s.startswith('Expired:')] *)
Definition startswith_Expired (s : string) : bool :=
  String.prefix "Expired:" s.

Section Generator.

(** What the consumer's loop body does with a yielded event. *)
Variable sink : WatchEvent -> State -> State.
Variable w : nat.
Variables manage_resource_version quit_on_timeout : bool.

(** The body of [for e in self.k8s_watcher.stream(...)] in the main loop. *)
Fixpoint pump (its : list Item) (st : State) : State * list Obs * ForEnd :=
  match its with
  | [] => (st, [], ForDone)
  | Env op :: rest => pump rest (apply_op op st)
  | Ev e at_yield :: rest =>
      if negb (W.isrunning (watcher st w)) then (st, [], ForBreak)
      else
        let o := raw_object e in
        match event_version o with
        | Raise exn => (st, [], ForRaise exn)
        | Ok new_rv =>
            let st1 :=
              if new_rv >? W.highest_resource_version (watcher st w)
              then on_watcher (W.set_highest new_rv) w st
              else st in
            let event := {| etype := raw_type e; obj := o |} in
            if negb (W.isrunning (watcher st1 w)) then (st1, [], ForBreak)
            else
              let st2 := apply_ops at_yield (sink event st1) in
              if negb (W.isrunning (watcher st2 w))
              then (st2, [Yield event], ForBreak)
              else
                let '(st3, obs, fe) := pump rest st2 in
                (st3, Yield event :: obs, fe)
        end
  end.

(** [except ApiException as e] of the main loop. *)
Definition on_exception (exn : PyExn) (st : State) : Next :=
  match exn with
  | ApiException status reason =>
      if (Z.eqb status 410 && manage_resource_version)%bool then
        match rvre_search reason with
        | Some newrv =>
            match update_resource_version (PyStr newrv) w st with
            | Ok st' => Continue st'
            | Raise exn' => Stop st (Raised exn')
            end
        | None => Stop st (Raised exn)
        end
      else Stop st (Raised exn)
  | _ => Stop st (Raised exn)
  end.

(** After the [for] loop ended without an exception. *)
Definition on_timeout (st : State) : Next :=
  if (W.isrunning (watcher st w) && quit_on_timeout)%bool
  then Stop st Returned
  else Continue st.

(** The [try] statement of the main loop, for one opening of the
    transport. *)
Definition round (r : Response) (st : State) : list Obs * Next :=
  let '(st1, obs, fe) := pump (items r) st in
  (obs,
   match fe with
   | ForRaise exn => on_exception exn st1
   | ForBreak => on_timeout st1
   | ForDone =>
       match ending r with
       | Timeout => on_timeout st1
       | Fail exn => on_exception exn st1
       end
   end).

(** The cursor adjustment at the head of the main loop. *)
Definition advance (st : State) : PyResult State :=
  if manage_resource_version then
    match W.current_resource_version (watcher st w) with
    | Some s =>
        match int s with
        | None => Raise (ValueError "invalid literal for int() with base 10")
        | Some n =>
            let highest := W.highest_resource_version (watcher st w) in
            if highest >? n
            then update_resource_version (PyInt highest) w st
            else Ok st
        end
    | None => Ok st
    end
  else Ok st.

(** [while self.isrunning(): ...] *)
Fixpoint loop (script : list Response) (st : State) : Run :=
  if negb (W.isrunning (watcher st w)) then
    {| final := st; trace := []; outcome := Returned |}
  else
    match advance st with
    | Raise exn => {| final := st; trace := []; outcome := Raised exn |}
    | Ok st1 =>
        match script with
        | [] => {| final := st1; trace := []; outcome := Pending |}
        | r :: rest =>
            let o := Open Main (W.kwargs (watcher st1 w))
                       (W.highest_resource_version (watcher st1 w)) in
            let '(obs, nx) := round r st1 in
            match nx with
            | Continue st2 => emit (o :: obs) (loop rest st2)
            | Stop st2 out =>
                {| final := st2; trace := o :: obs; outcome := out |}
            end
        end
    end.

(** The body of the priming [for] loop raises at the first event. *)
Fixpoint prime_pump (its : list Item) (st : State) : State * bool :=
  match its with
  | [] => (st, false)
  | Env op :: rest => prime_pump rest (apply_op op st)
  | Ev _ _ :: _ => (st, true)
  end.

(** The priming run, for one opening of the transport with the cursor
    forced to ['1']. *)
Definition prime (r : Response) (st : State) : Next :=
  let '(st1, delivered) := prime_pump (items r) st in
  if delivered then
    Stop st1 (Raised (RuntimeError "Unable to determine the oldest available resource version"))
  else
    match ending r with
    | Timeout => Continue st1
    | Fail (ApiException status reason) =>
        if (Z.eqb status 410 && startswith_Expired reason)%bool then
          match rvre_search reason with
          | Some new_rv =>
              match update_resource_version (PyStr new_rv) w st1 with
              | Ok st' => Continue st'
              | Raise exn' => Stop st1 (Raised exn')
              end
          | None => Stop st1 (Raised (ApiException status reason))
          end
        else Stop st1 (Raised (ApiException status reason))
    | Fail exn => Stop st1 (Raised exn)
    end.

(** [Watcher.stream(manage_resource_version, quit_on_timeout)], run to
    the end of the script. *)
Definition stream (script : list Response) (st : State) : Run :=
  let st := on_watcher W.start w st in
  let st := on_watcher (W.set_k8s_watcher (Some W._k8s_watch_factory)) w st in
  if (manage_resource_version
      && bool_decide (W.current_resource_version (watcher st w) = None))%bool
  then
    match script with
    | [] => {| final := st; trace := []; outcome := Pending |}
    | r :: rest =>
        let o := Open Priming
                   (W.kw_set_resource_version "1" (W.kwargs (watcher st w)))
                   (W.highest_resource_version (watcher st w)) in
        match prime r st with
        | Continue st1 => emit [o] (loop rest st1)
        | Stop st1 out => {| final := st1; trace := [o]; outcome := out |}
        end
    end
  else loop script st.

End Generator.

(** The cursor of a request is a number not below the highest version
    observed when the request is made. *)
Definition cursor_covers (kw : W.Kwargs) (highest : Z) : Prop :=
  exists s n, W.resource_version kw = Some s /\ int s = Some n /\ highest <= n.

(** Every request of a run carries such a cursor. *)
Definition all_requests_covered (t : list Obs) : Prop :=
  forall ph kw highest, Open ph kw highest ∈ t -> cursor_covers kw highest.

(** A request of the main loop carries no cursor or a covering one; the
    priming request carries the cursor ['1']. *)
Definition main_request_ok (o : Obs) : Prop :=
  match o with
  | Open Main kw h =>
      forall s, W.resource_version kw = Some s ->
                exists n, int s = Some n /\ h <= n
  | Open Priming kw h => W.resource_version kw = Some "1"
  | Yield _ => True
  end.

(** The largest of [seen] and the versions of the events yielded in [t]
    (and of the highest versions recorded at its requests). *)
Fixpoint seen_after (seen : Z) (t : list Obs) : Z :=
  match t with
  | [] => seen
  | Open _ _ h :: t' => seen_after (Z.max seen h) t'
  | Yield we :: t' =>
      seen_after
        (match event_version (obj we) with
         | Ok v => Z.max seen v
         | Raise _ => seen
         end) t'
  end.

(** The highest version recorded at each request of [t] is at least [seen]
    and at least the version of every event yielded before the request. *)
Fixpoint requests_dominate (seen : Z) (t : list Obs) : Prop :=
  match t with
  | [] => True
  | Open _ _ h :: t' => seen <= h /\ requests_dominate (Z.max seen h) t'
  | Yield we :: t' =>
      requests_dominate
        (match event_version (obj we) with
         | Ok v => Z.max seen v
         | Raise _ => seen
         end) t'
  end.

(** The events yielded in a trace, in order. *)
Fixpoint yielded (t : list Obs) : list WatchEvent :=
  match t with
  | [] => []
  | Yield we :: t' => we :: yielded t'
  | Open _ _ _ :: t' => yielded t'
  end.

(** A transport during which nobody else acts: events only, and nothing
    happens to the shared state at the yields. *)
Definition quiet (its : list Item) : bool :=
  forallb (fun it => match it with Ev _ [] => true | _ => false end) its.

(** A Watcher consumed directly: the consumer's own actions are the
    [at_yield] parts of the script. *)
Definition standalone : WatchEvent -> State -> State := fun _ st => st.

End Stream.

(** ** The per-member worker and [MultiplexingWatcher.stream] *)

Module Worker.
Import Py Mux Stream.

(** The failure callback [exception_callback(mux, watcher, exception)]: it
    sees the shared state, may change it, and returns a value or raises. *)
Definition Callback : Type := State -> nat -> PyExn -> PyResult PyVal * State.

(** Truth value of a policy flag ([None] until [stream] stores it). *)
Definition flag (o : option bool) : bool := default false o.

(** What the worker did, in order. *)
Inductive Did : Type :=
  | CalledStream (w : nat) (manage quit : bool)
  | CalledCallback (w : nat) (e : PyExn) (result : PyResult PyVal)
  | CalledDelWatcher (w : nat).

(** One pass of the worker's [while] loop: the script of the transport for
    this call of [watcher.stream], preceded by what other threads do before
    the loop condition is evaluated. *)
Record Pass : Type := {
  before : list Op;
  responses : list Response
}.

Inductive WorkerEnd : Type :=
  | Finished
  | Starved.

Section WithCallback.

Variable exception_callback : option Callback.

(** The body of the worker's [for we in watcher.stream(...)]. *)
Definition enqueue (w : nat) (we : WatchEvent) (st : State) : State :=
  if (W.isrunning (watcher st w) && isrunning st)%bool then put we st
  else st.

(** The [except Exception as e] clause of the worker. *)
Definition on_failure (w : nat) (e : PyExn) (st : State)
    : State * list Did :=
  let '(flag, st1, did) :=
    match exception_callback with
    | Some meth =>
        match meth st w e with
        | (Ok v, st1) => (v, st1, [CalledCallback w e (Ok v)])
        | (Raise e', st1) => (PyNone, st1, [CalledCallback w e (Raise e')])
        end
    | None => (PyNone, st, [])
    end in
  (if negb (is_True flag) then on_watcher W.stop w st1 else st1, did).

(** The [try] statement of the worker; [None] when the script ends while
    the member's generator is still alive. *)
Definition attempt (w : nat) (script : list Response) (st : State)
    : option (State * list Did) :=
  let manage := flag (manage_resource_version (mux st)) in
  let quit := flag (quit_on_timeout (mux st)) in
  let r := stream (enqueue w) w manage quit script st in
  let did := CalledStream w manage quit in
  match outcome r with
  | Pending => None
  | Returned =>
      let st1 := final r in
      Some (if flag (quit_on_timeout (mux st1))
            then on_watcher W.stop w st1 else st1, [did])
  | Raised e =>
      let '(st1, did') := on_failure w e (final r) in
      Some (st1, did :: did')
  end.

(** [_run_watcher(watcher)] from the loop condition on, with the local
    variable [watcher_running]. *)
Fixpoint run_from (w : nat) (watcher_running : bool) (passes : list Pass)
    (st : State) : State * list Did * WorkerEnd :=
  if negb watcher_running then
    (del_watcher w st, [CalledDelWatcher w], Finished)
  else
    match passes with
    | [] => (st, [], Starved)
    | p :: rest =>
        let st0 := apply_ops (before p) st in
        if negb (isrunning st0) then
          (del_watcher w st0, [CalledDelWatcher w], Finished)
        else
          match attempt w (responses p) st0 with
          | None => (st0, [], Starved)
          | Some (st1, did) =>
              let '(st2, did', e) :=
                run_from w (W.isrunning (watcher st1 w)) rest st1 in
              (st2, did ++ did', e)
          end
    end.

(** [MultiplexingWatcher._run_watcher] *)
Definition _run_watcher (w : nat) (passes : list Pass) (st : State)
    : State * list Did * WorkerEnd :=
  run_from w true passes st.

End WithCallback.

(** A pass during which no other thread acts. *)
Definition quiet_pass (p : Pass) : bool :=
  match before p with
  | [] => forallb (fun r => quiet (items r)) (responses p)
  | _ :: _ => false
  end.

(** [st'] differs from [st] at most in the state of the Watcher [w], whose
    class is the same, and in the queue, the flags and the workers of the
    coordinator. *)
Definition only_touches (w : nat) (st st' : State) : Prop :=
  watchers (mux st') = watchers (mux st) /\
  isrunning st' = isrunning st /\
  quit_on_timeout (mux st') = quit_on_timeout (mux st) /\
  manage_resource_version (mux st') = manage_resource_version (mux st) /\
  W.cls (watcher st' w) = W.cls (watcher st w) /\
  forall w', w' <> w -> watcher st' w' = watcher st w'.

(** [MultiplexingWatcher.stream] up to its [while] loop. *)
Definition stream_begin (manage quit : bool) (st : State) : State :=
  let st1 := on_mux (set_policy (Some manage) (Some quit)) st in
  let st2 := start st1 in
  foldl (fun s w => _start_watcher w s) st2 (members st2).

Inductive Poll : Type :=
  | Got (we : WatchEvent)
  | Empty
  | Stopped.

(** One evaluation of the loop condition and, when it holds, one
    [results_queue.get(block=True, timeout=0.1)]: [Empty] is the
    [queue.Empty] of a wait that saw no item. *)
Definition poll (st : State) : Poll * State :=
  if (isrunning st && negb (bool_decide (watchers (mux st) = ∅)))%bool then
    match results_queue (mux st) with
    | we :: q => (Got we, on_mux (set_queue q) st)
    | [] => (Empty, st)
    end
  else (Stopped, st).

Inductive MuxEnd : Type :=
  | MuxReturned
  | MuxPending.

(** The coordinator's [while] loop; each element of the script is what the
    other threads and the consumer do between two evaluations of the loop
    condition. *)
Fixpoint consume (script : list (list Op)) (st : State)
    : State * list WatchEvent * MuxEnd :=
  match poll st with
  | (Stopped, st1) => (st1, [], MuxReturned)
  | (Got we, st1) =>
      match script with
      | [] => (st1, [we], MuxPending)
      | ops :: rest =>
          let '(st2, out, e) := consume rest (apply_ops ops st1) in
          (st2, we :: out, e)
      end
  | (Empty, st1) =>
      match script with
      | [] => (st1, [], MuxPending)
      | ops :: rest => consume rest (apply_ops ops st1)
      end
  end.

(** [MultiplexingWatcher.stream(manage_resource_version, quit_on_timeout)] *)
Definition stream (manage quit : bool) (script : list (list Op)) (st : State)
    : State * list WatchEvent * MuxEnd :=
  consume script (stream_begin manage quit st).

(** The events put on the queue by a list of actions, in order. *)
Definition puts (ops : list Op) : list WatchEvent :=
  omap (fun op => match op with QueuePut we => Some we | _ => None end) ops.

End Worker.

(** ** The watchable kinds of [hikaru.model.rel_1_21.v1alpha1] *)

Module Watchables.

(** The attributes of class [Watchables]: the classes that support watches
    without the namespace keyword argument. *)
Definition Watchables : list string :=
  [ "StorageVersionList"; "StorageVersion"; "RuntimeClassList";
    "RuntimeClass"; "ClusterRoleBindingList"; "ClusterRoleBinding";
    "ClusterRoleList"; "ClusterRole"; "RoleBindingList"; "RoleBinding";
    "RoleList"; "Role"; "PriorityClassList"; "PriorityClass";
    "CSIStorageCapacityList"; "CSIStorageCapacity"; "VolumeAttachmentList";
    "VolumeAttachment" ].

(** The attributes of class [NamespacedWatchables]: the classes that
    support watches with the namespace keyword argument. *)
Definition NamespacedWatchables : list string :=
  [ "RoleBindingList"; "RoleList"; "CSIStorageCapacityList"; "RoleBinding";
    "Role"; "CSIStorageCapacity" ].

(** The listing class of a kind is named after it. *)
Definition list_class (name : string) : string := name +:+ "List".

End Watchables.

(** ** Concrete kinds, Watchers and states used in the examples *)

Module Examples.
Import Py W.

Definition rbac_descriptor (m : string) : WatcherDescriptor :=
  {| pkgname := "kubernetes.client";
     modname := ".api.rbac_authorization_v1alpha1_api";
     clsname := "RbacAuthorizationV1alpha1Api";
     methname := m |}.

(** [RoleList] is listed both in [Watchables] and in [NamespacedWatchables]
    of the model; [ClusterRoleList] only in [Watchables]. *)
Definition RoleList_support : WatchSupport :=
  {| _namespaced_watcher := Some (rbac_descriptor "list_namespaced_role");
     _watcher := Some (rbac_descriptor "list_role_for_all_namespaces") |}.

Definition ClusterRoleList_support : WatchSupport :=
  {| _namespaced_watcher := None;
     _watcher := Some (rbac_descriptor "list_cluster_role") |}.

Definition no_support : WatchSupport :=
  {| _namespaced_watcher := None; _watcher := None |}.

Definition Role : PyClass :=
  {| cls_id := "hikaru.model.rel_1_21.v1alpha1.Role";
     __name__ := "Role";
     is_HikaruDocumentBase := true;
     _watcher_cls := Some RoleList_support;
     cls_support := no_support |}.

Definition ClusterRole : PyClass :=
  {| cls_id := "hikaru.model.rel_1_21.v1alpha1.ClusterRole";
     __name__ := "ClusterRole";
     is_HikaruDocumentBase := true;
     _watcher_cls := Some ClusterRoleList_support;
     cls_support := no_support |}.

(** [Watcher(c)] and [Watcher(c, resource_version=rv)] with the other
    arguments at their defaults. *)
Definition new_watcher (c : PyClass) (rv : PyVal) : Watcher :=
  match __init__ ∅ c None None None None rv (Some 1) None with
  | Ok (w, _) => w
  | Raise _ => inhabitant
  end.

Definition role_watcher : Watcher := new_watcher Role PyNone.

Definition cluster_role_watcher : Watcher := new_watcher ClusterRole PyNone.

(** A state holding three Watcher objects: two for [Role] (objects 0 and
    1) and one for [ClusterRole] (object 2), and a fresh coordinator. *)
Definition objects : gmap nat Watcher :=
  <[0%nat := role_watcher]>
    (<[1%nat := role_watcher]> (<[2%nat := cluster_role_watcher]> ∅)).

Definition fresh : Mux.State :=
  {| Mux.heap := objects; Mux.mux := Mux.__init__ |}.

Definition role_event (rv : string) : Mux.RawEvent :=
  {| Mux.raw_type := "ADDED";
     Mux.raw_object :=
       {| Mux.kind := "Role";
          Mux.metadata := Some {| Mux.resourceVersion := Some rv |} |} |}.

Definition role_added (rv : string) : Mux.WatchEvent :=
  {| Mux.etype := "ADDED"; Mux.obj := Mux.raw_object (role_event rv) |}.

(** A coordinator with the [Role] Watcher 0 and the [ClusterRole] Watcher 2
    registered, before and after [stream()] started its workers. *)
Definition two_members : Mux.State :=
  Mux.add_watcher 2 (Mux.add_watcher 0 fresh).

Definition streaming : Mux.State := Worker.stream_begin false false two_members.

(** A running coordinator without members whose queue still holds an
    event. *)
Definition running_without_members : Mux.State :=
  Mux.put (role_added "7") (Mux.start fresh).

(** A Watcher without initial cursor, streamed twice with
    [manage_resource_version=True].  First run: the priming request times
    out without an event, the main loop opens the transport, an event with
    version 100 arrives and the consumer stops the Watcher.  Second run: the
    priming request is answered by the expiry error. *)
Definition first_run : Stream.Run :=
  Stream.stream Stream.standalone 0 true false
    [ {| Stream.items := []; Stream.ending := Stream.Timeout |};
      {| Stream.items := [Stream.Ev (role_event "100") [Mux.WatcherStop 0]];
         Stream.ending := Stream.Timeout |} ]
    fresh.

Definition second_script : list Stream.Response :=
  [ {| Stream.items := [];
       Stream.ending :=
         Stream.Fail (ApiException 410 "Expired: too old resource version: 1 (90)") |};
    {| Stream.items := [Stream.Ev (role_event "101") [Mux.WatcherStop 0]];
       Stream.ending := Stream.Timeout |} ].

Definition second_run : Stream.Run :=
  Stream.stream Stream.standalone 0 true false second_script
    (Stream.final first_run).

(** The expiry error of the specification's test, and one whose reason has
    a parenthesized number but another prefix. *)
Definition expired : PyExn := ApiException 410 "Expired: past history (12345)".

Definition gone : PyExn := ApiException 410 "Gone: past history (12345)".

Definition fails_with (e : PyExn) : Stream.Response :=
  {| Stream.items := []; Stream.ending := Stream.Fail e |}.

Definition idle : Stream.Response :=
  {| Stream.items := []; Stream.ending := Stream.Timeout |}.

(** A Watcher without cursor whose priming request is answered by [gone]. *)
Definition primed_with_gone : Stream.Run :=
  Stream.stream Stream.standalone 0 true false [fails_with gone; idle] fresh.

(** A Watcher created with cursor 5 whose first request is answered by
    [expired], the second by an idle timeout. *)
Definition with_cursor : Mux.State :=
  {| Mux.heap := <[0%nat := new_watcher Role (PyInt 5)]> objects;
     Mux.mux := Mux.__init__ |}.

(** The same state once [stream] has marked the Watcher running and made
    its transport object. *)
Definition started_with_cursor : Mux.State :=
  Mux.on_watcher (W.set_k8s_watcher (Some W._k8s_watch_factory)) 0
    (Mux.on_watcher W.start 0 with_cursor).

Definition recovered : Stream.Run :=
  Stream.stream Stream.standalone 0 true true [fails_with expired; idle]
    with_cursor.

(** Watcher 1 registered in place of Watcher 0 and then marked running. *)
Definition replaced : Mux.State :=
  Mux.on_watcher W.start 1 (Mux.add_watcher 1 (Mux.add_watcher 0 fresh)).

(** A running Watcher with cursor 5 that has observed version 100. *)
Definition behind : Mux.State :=
  Mux.on_watcher (W.set_highest 100) 0 started_with_cursor.

(** Failure callbacks: one that returns [True], one that returns the
    string ["continue"], one that raises. *)
Definition returns_True : Worker.Callback :=
  fun st _ _ => (Ok (PyBool true), st).

Definition returns_continue : Worker.Callback :=
  fun st _ _ => (Ok (PyStr "continue"), st).

Definition raises : Worker.Callback :=
  fun st _ _ => (Raise (RuntimeError "callback failed"), st).

Definition boom : PyExn := OtherException "ConnectionError".

(** A pass of the worker in which the member's transport fails, one in
    which it delivers an event and then fails, and one in which it only
    times out. *)
Definition failing_pass : Worker.Pass :=
  {| Worker.before := []; Worker.responses := [fails_with boom] |}.

Definition event_then_failure (rv : string) : Worker.Pass :=
  {| Worker.before := [];
     Worker.responses :=
       [ {| Stream.items := [Stream.Ev (role_event rv) []];
            Stream.ending := Stream.Fail boom |} ] |}.

Definition idle_pass : Worker.Pass :=
  {| Worker.before := []; Worker.responses := [idle] |}.

(** The coordinator streaming with [quit_on_timeout=True]. *)
Definition streaming_quit : Mux.State :=
  Worker.stream_begin false true two_members.

(** The only member's worker queues an event; at that moment the consumer
    stops the coordinator; the worker then ends and cleans up. *)
Definition one_member : Mux.State :=
  Worker.stream_begin false false (Mux.add_watcher 0 fresh).

Definition stopping_pass : Worker.Pass :=
  {| Worker.before := [];
     Worker.responses :=
       [ {| Stream.items := [Stream.Ev (role_event "7") [Mux.MuxStop]];
            Stream.ending := Stream.Timeout |} ] |}.

Definition stopped_run : Mux.State * list Worker.Did * Worker.WorkerEnd :=
  Worker._run_watcher None 0 [stopping_pass] one_member.

Definition stopped_early : Mux.State := stopped_run.1.1.

End Examples.

(** * Properties *)

(** ** [int], [str] and the cursor pattern *)

Module PyFacts.
Import Py.

Lemma int_digits_uint (d : Decimal.uint) (acc : Z) :
  int_digits (NilEmpty.string_of_uint d) acc = Some (uint_val d acc).
Proof.
  revert acc. induction d; intros acc; simpl; try reflexivity;
    rewrite IHd; do 2 f_equal;
    match goal with
    | |- context [digit_val ?c] =>
        let k := eval vm_compute in (digit_val c) in
        change (digit_val c) with k
    end; lia.
Qed.

Lemma uint_val_acc (d : Decimal.uint) (p : positive) :
  uint_val d (Z.pos p) = Z.pos (Pos.of_uint_acc d p).
Proof.
  revert p. induction d; intros p; simpl; try reflexivity;
    rewrite <- IHd; f_equal; lia.
Qed.

Lemma uint_val_of_uint (d : Decimal.uint) : uint_val d 0 = Z.of_uint d.
Proof.
  unfold Z.of_uint. induction d; simpl; try reflexivity; try exact IHd;
    change (10 * 0 + _) with (Z.pos 1) || idtac;
    match goal with
    | |- uint_val _ ?k = _ => change k with (Z.pos (Z.to_pos k))
    end; rewrite uint_val_acc; reflexivity.
Qed.

End PyFacts.

Module PyFactsMore.
Import Py PyFacts.

Lemma rstrip_no_space (s : string) :
  all_chars (fun c => negb (is_space c)) s = true -> rstrip s = s.
Proof.
  unfold all_chars. induction s as [|c r IH]; simpl; [reflexivity|].
  intros H. apply andb_prop in H as [Hc Hr]. rewrite (IH Hr).
  destruct r; [|reflexivity].
  apply negb_true_iff in Hc. rewrite Hc. reflexivity.
Qed.

Lemma strip_no_space (s : string) :
  all_chars (fun c => negb (is_space c)) s = true -> strip s = s.
Proof.
  intros H. unfold strip.
  assert (lstrip s = s) as ->; [|apply rstrip_no_space, H].
  destruct s as [|c r]; [reflexivity|]. simpl.
  unfold all_chars in H. simpl in H. apply andb_prop in H as [Hc _].
  apply negb_true_iff in Hc. rewrite Hc. reflexivity.
Qed.

Lemma uint_no_space (d : Decimal.uint) :
  all_chars (fun c => negb (is_space c)) (NilEmpty.string_of_uint d) = true.
Proof. unfold all_chars. induction d; simpl; auto. Qed.

Lemma uint_all_digits (d : Decimal.uint) :
  all_chars is_digit (NilEmpty.string_of_uint d) = true.
Proof. unfold all_chars. induction d; simpl; auto. Qed.

Lemma int_unsigned_uint (d : Decimal.uint) :
  d <> Decimal.Nil ->
  int_unsigned (NilEmpty.string_of_uint d) = Some (Z.of_uint d).
Proof.
  intros Hd. rewrite <- uint_val_of_uint.
  destruct d; [congruence|..]; simpl; rewrite int_digits_uint; reflexivity.
Qed.

Lemma int_unsigned_to_uint (p : positive) :
  int_unsigned (NilEmpty.string_of_uint (Pos.to_uint p)) = Some (Z.pos p).
Proof.
  rewrite int_unsigned_uint by apply DecimalPos.Unsigned.to_uint_nonnil.
  unfold Z.of_uint. rewrite DecimalPos.Unsigned.of_to. reflexivity.
Qed.

Lemma nilzero_to_uint (p : positive) :
  NilZero.string_of_uint (Pos.to_uint p) =
  NilEmpty.string_of_uint (Pos.to_uint p).
Proof.
  unfold NilZero.string_of_uint.
  pose proof (DecimalPos.Unsigned.to_uint_nonnil p) as Hn.
  destruct (Pos.to_uint p); [congruence|..]; reflexivity.
Qed.

Lemma first_char_digit (d : Decimal.uint) (c : ascii) (r : string) :
  NilEmpty.string_of_uint d = String c r ->
  Ascii.eqb c "-" = false /\ Ascii.eqb c "+" = false.
Proof. destruct d; simpl; intros [= <- _]; split; reflexivity. Qed.

(** [int(str(z)) == z] for every integer [z]. *)
Lemma int_str_int (z : Z) : int (str_int z) = Some z.
Proof.
  unfold str_int, int. destruct z as [|p|p]; [reflexivity|..];
    simpl NilZero.string_of_int; rewrite nilzero_to_uint.
  - rewrite strip_no_space by apply uint_no_space.
    pose proof (int_unsigned_to_uint p) as Hp.
    destruct (NilEmpty.string_of_uint (Pos.to_uint p)) as [|c r] eqn:E;
      [discriminate|].
    apply first_char_digit in E as [-> ->]. exact Hp.
  - rewrite strip_no_space.
    + simpl. rewrite int_unsigned_to_uint. reflexivity.
    + unfold all_chars. simpl. apply uint_no_space.
Qed.

Lemma digit_not_space (c : ascii) : is_digit c = true -> is_space c = false.
Proof.
  destruct c as [[] [] [] [] [] [] [] []]; try reflexivity; discriminate.
Qed.

Lemma digit_not_sign (c : ascii) :
  is_digit c = true -> Ascii.eqb c "-" = false /\ Ascii.eqb c "+" = false.
Proof.
  destruct c as [[] [] [] [] [] [] [] []]; try discriminate; split; reflexivity.
Qed.

Lemma int_digits_total (s : string) (acc : Z) :
  all_chars is_digit s = true -> exists n, int_digits s acc = Some n.
Proof.
  unfold all_chars. revert acc. induction s as [|c r IH]; intros acc; simpl.
  - eauto.
  - intros H. apply andb_prop in H as [-> Hr]. apply IH, Hr.
Qed.

Lemma digits_no_space (s : string) :
  all_chars is_digit s = true ->
  all_chars (fun c => negb (is_space c)) s = true.
Proof.
  unfold all_chars. induction s as [|c r IH]; simpl; [reflexivity|].
  intros H. apply andb_prop in H as [Hc Hr].
  rewrite (digit_not_space c Hc), (IH Hr). reflexivity.
Qed.

(** [int] accepts every non-empty string of digits. *)
Lemma int_of_digits (s : string) :
  s <> EmptyString -> all_chars is_digit s = true ->
  exists n, int s = Some n.
Proof.
  intros Hne Hd. unfold int. rewrite strip_no_space by apply digits_no_space, Hd.
  destruct s as [|c r]; [congruence|].
  unfold all_chars in Hd. simpl in Hd. apply andb_prop in Hd as [Hc Hr].
  destruct (digit_not_sign c Hc) as [-> ->]. simpl. rewrite Hc.
  apply int_digits_total, Hr.
Qed.

End PyFactsMore.

Module ReFacts.
Import Py Re.

Lemma take_digits_app (g post : string) :
  all_chars is_digit g = true ->
  take_digits (g +:+ String ")" post) = (g, String ")" post).
Proof.
  unfold all_chars. induction g as [|c g IH]; simpl; [reflexivity|].
  intros H. apply andb_prop in H as [-> Hg]. rewrite (IH Hg). reflexivity.
Qed.

Lemma take_digits_spec (s d t : string) :
  take_digits s = (d, t) -> s = d +:+ t /\ all_chars is_digit d = true.
Proof.
  unfold all_chars. revert d t. induction s as [|c r IH]; simpl; intros d t.
  - intros [= <- <-]. auto.
  - destruct (is_digit c) eqn:Hc.
    + destruct (take_digits r) as [d' t'] eqn:E. intros [= <- <-].
      destruct (IH _ _ eq_refl) as [-> Hd]. simpl. rewrite Hc. auto.
    + intros [= <- <-]. auto.
Qed.

Lemma match_here_sound (s g : string) :
  match_here s = Some g ->
  exists post, s = String "(" (g +:+ String ")" post) /\
               g <> EmptyString /\ all_chars is_digit g = true.
Proof.
  destruct s as [|c r]; simpl; [discriminate|].
  destruct (Ascii.eqb_spec c "("); [subst c|discriminate].
  destruct (take_digits r) as [d t] eqn:E.
  destruct d as [|d0 ds]; [discriminate|].
  destruct t as [|c' t']; [discriminate|].
  destruct (Ascii.eqb_spec c' ")"); [subst c'|discriminate].
  intros [= <-]. apply take_digits_spec in E as [-> Hd].
  exists t'. split; [reflexivity|]. split; [discriminate|exact Hd].
Qed.

Lemma match_here_complete (g post : string) :
  g <> EmptyString -> all_chars is_digit g = true ->
  match_here (String "(" (g +:+ String ")" post)) = Some g.
Proof.
  intros Hne Hd. simpl. rewrite (take_digits_app g post Hd).
  destruct g; [congruence|reflexivity].
Qed.

Lemma rvre_search_sound (s g : string) :
  rvre_search s = Some g -> paren_number g s.
Proof.
  induction s as [|c r IH]; [simpl; discriminate|cbn [rvre_search]].
  destruct (match_here (String c r)) as [g'|] eqn:E.
  - intros [= <-]. apply match_here_sound in E as (post & -> & Hne & Hd).
    exists EmptyString, post. auto.
  - intros H. destruct (IH H) as (pre & post & -> & Hne & Hd).
    exists (String c pre), post. auto.
Qed.

Lemma rvre_search_complete (s g : string) :
  paren_number g s -> exists g', rvre_search s = Some g'.
Proof.
  intros (pre & post & -> & Hne & Hd).
  induction pre as [|c pre IH].
  - exists g. pose proof (match_here_complete g post Hne Hd) as E.
    change (rvre_search (String "(" (g +:+ String ")" post)) = Some g).
    cbn [rvre_search]. rewrite E. reflexivity.
  - destruct IH as [g' Hg'].
    change (String c pre +:+ ?x) with (String c (pre +:+ x)).
    cbn [rvre_search].
    destruct (match_here (String c _)) as [g''|]; eauto.
Qed.

Lemma rvre_search_None (s : string) :
  rvre_search s = None <-> ~ has_paren_number s.
Proof.
  split.
  - intros H [g Hg]. destruct (rvre_search_complete _ _ Hg). congruence.
  - intros H. destruct (rvre_search s) as [g|] eqn:E; [|reflexivity].
    exfalso. apply H. exists g. apply rvre_search_sound, E.
Qed.

End ReFacts.

(** ** Watcher: construction and cursor *)

Module WatcherFacts.
Import Py W Examples.

(** C4.  [Watcher.__init__] raises [TypeError] when the class is not a
    kind that supports the watch variant asked for (the namespaced one when
    a non-empty namespace is given, the cluster-wide one otherwise), and
    returns a Watcher, not yet running, in every other case, whatever the
    remaining arguments are. *)
Theorem init_fails_exactly_on_unsupported_variant
    (cache : gmap ApiKey ApiClass) (c : PyClass) (ns : option string)
    (bookmarks : option bool) (fsel lsel : option string) (rv : PyVal)
    (timeout : option Z) (cl : option nat) :
  (supports_requested_variant c ns = false ->
     exists msg,
       __init__ cache c ns bookmarks fsel lsel rv timeout cl
       = Raise (TypeError msg)) /\
  (supports_requested_variant c ns = true ->
     exists w cache',
       __init__ cache c ns bookmarks fsel lsel rv timeout cl
       = Ok (w, cache') /\ cls w = c /\ isrunning w = false).
Proof.
  unfold __init__, supports_requested_variant.
  destruct (is_HikaruDocumentBase c); cbn [negb andb];
    [|split; [eauto|discriminate]].
  destruct (truthy ns).
  - destruct (_namespaced_watcher (watcher_cls c)) as [d|]; split; intros H.
    + rewrite bool_decide_eq_false in H. exfalso. apply H. eauto.
    + destruct (_get_api_class cache d) as [a cache'] eqn:E. eauto.
    + eauto.
    + rewrite bool_decide_eq_true in H. destruct H; discriminate.
  - destruct (_watcher (watcher_cls c)) as [d|]; split; intros H.
    + rewrite bool_decide_eq_false in H. exfalso. apply H. eauto.
    + destruct (_get_api_class cache d) as [a cache'] eqn:E. eauto.
    + eauto.
    + rewrite bool_decide_eq_true in H. destruct H; discriminate.
Qed.

Lemma init_fails_exactly_on_unsupported_variant_witness :
  (exists msg,
     __init__ ∅ ClusterRole (Some "default") None None None PyNone (Some 1) None
     = Raise (TypeError msg)) /\
  (exists w cache',
     __init__ ∅ Role (Some "default") None None None PyNone (Some 1) None
     = Ok (w, cache') /\ cls w = Role /\ isrunning w = false).
Proof.
  split.
  - apply (init_fails_exactly_on_unsupported_variant
             ∅ ClusterRole (Some "default") None None None PyNone (Some 1) None).
    reflexivity.
  - apply (init_fails_exactly_on_unsupported_variant
             ∅ Role (Some "default") None None None PyNone (Some 1) None).
    reflexivity.
Defined.

(** C8 as stated fails on the empty string: [update_resource_version("")]
    does not raise and installs the empty cursor. *)
Lemma update_resource_version_accepts_empty :
  (~ exists e, update_resource_version (PyStr "") role_watcher = Raise e) /\
  (exists w', update_resource_version (PyStr "") role_watcher = Ok w' /\
              current_resource_version w' = Some "").
Proof.
  split.
  - intros [e H]. discriminate H.
  - eexists. split; reflexivity.
Qed.

(** C8, amended.  [update_resource_version(v)] raises exactly when [v] is
    [None]; for every other [v], the empty string included, it sets the
    cursor to [str(v)], which [current_resource_version()] then returns, and
    leaves the rest of the Watcher as it was. *)
Theorem update_resource_version_spec (w : Watcher) (v : PyVal) :
  (v = PyNone ->
     exists msg, update_resource_version v w = Raise (RuntimeError msg)) /\
  (v <> PyNone ->
     exists w',
       update_resource_version v w = Ok w' /\
       current_resource_version w' = Some (str v) /\
       isrunning w' = isrunning w /\
       highest_resource_version w' = highest_resource_version w /\
       k8s_watcher w' = k8s_watcher w /\ cls w' = cls w).
Proof.
  split.
  - intros ->. eexists. reflexivity.
  - intros Hv. destruct v; [congruence|..]; eexists; repeat split.
Qed.

Lemma update_resource_version_spec_witness :
  (exists msg,
     update_resource_version PyNone role_watcher = Raise (RuntimeError msg)) /\
  (exists w',
     update_resource_version (PyInt 12345) role_watcher = Ok w' /\
     current_resource_version w' = Some "12345").
Proof.
  split.
  - apply (update_resource_version_spec role_watcher PyNone). reflexivity.
  - destruct (update_resource_version_spec role_watcher (PyInt 12345))
      as [_ H].
    destruct H as (w' & H1 & H2 & _); [discriminate|].
    exists w'. split; [exact H1|exact H2].
Defined.

End WatcherFacts.

(** ** The coordinator's operations *)

Module MuxFacts.
Import Py Mux.

Lemma watcher_on_watcher (f : W.Watcher -> W.Watcher) (w w' : nat)
    (st : State) :
  watcher (on_watcher f w st) w' =
  if decide (w = w') then f (watcher st w) else watcher st w'.
Proof.
  unfold watcher, on_watcher. cbn [heap].
  destruct (decide (w = w')) as [->|Hne].
  - apply lookup_total_insert_eq.
  - apply lookup_total_insert_ne, Hne.
Qed.

Lemma watcher_on_mux (f : MultiplexingWatcher -> MultiplexingWatcher)
    (w : nat) (st : State) :
  watcher (on_mux f st) w = watcher st w.
Proof. reflexivity. Qed.

Lemma stop_idemp (x : W.Watcher) : W.stop (W.stop x) = W.stop x.
Proof. unfold W.stop. cbn. destruct (W.k8s_watcher x); reflexivity. Qed.

Lemma stop_not_running (x : W.Watcher) : W.isrunning (W.stop x) = false.
Proof. reflexivity. Qed.

Lemma stop_cls (x : W.Watcher) : W.cls (W.stop x) = W.cls x.
Proof. reflexivity. Qed.

(** Stopping a list of Watcher objects one after the other. *)
Lemma stop_each (l : list nat) (st : State) :
  let st' := foldl (fun s w => on_watcher W.stop w s) st l in
  mux st' = mux st /\
  forall w, watcher st' w =
            if decide (w ∈ l) then W.stop (watcher st w) else watcher st w.
Proof.
  revert st. induction l as [|a l IH]; intros st; cbn [foldl].
  - split; [reflexivity|]. intros w. destruct (decide (w ∈ [])) as [H|_].
    + inversion H.
    + reflexivity.
  - destruct (IH (on_watcher W.stop a st)) as [Hm Hw]. split.
    + rewrite Hm. reflexivity.
    + intros w. rewrite Hw, watcher_on_watcher.
      destruct (decide (w ∈ l)) as [Hin|Hnin];
        destruct (decide (a = w)) as [->|Hne];
        destruct (decide (_ ∈ _ :: l)) as [Hin'|Hnin'];
        try reflexivity; try apply stop_idemp.
      * exfalso. apply Hnin'. right. exact Hin.
      * exfalso. apply Hnin'. right. exact Hin.
      * exfalso. apply Hnin'. left.
      * apply elem_of_cons in Hin' as [->|Hin']; congruence.
Qed.

Lemma watcher_heap (st1 st2 : State) (w : nat) :
  heap st1 = heap st2 -> watcher st1 w = watcher st2 w.
Proof. unfold watcher. intros ->. reflexivity. Qed.

Lemma add_watcher_heap (w : nat) (st : State) :
  heap (add_watcher w st) =
  match watchers (mux st) !! key_of st w with
  | Some current => heap (on_watcher W.stop current st)
  | None => heap st
  end.
Proof.
  unfold add_watcher.
  destruct (watchers (mux st) !! key_of st w);
    match goal with |- context [if ?b then _ else _] => destruct b end;
    reflexivity.
Qed.

Lemma add_watcher_mux (w : nat) (st : State) :
  mux (add_watcher w st) =
  {| _run := _run (mux st);
     watchers := <[key_of st w := w]> (watchers (mux st));
     results_queue := results_queue (mux st);
     manage_resource_version := manage_resource_version (mux st);
     quit_on_timeout := quit_on_timeout (mux st);
     started := if _run (mux st) then started (mux st) ++ [w]
                else started (mux st) |}.
Proof.
  unfold add_watcher, isrunning, _start_watcher, on_mux, on_watcher,
    set_watchers, set_started.
  destruct (watchers (mux st) !! key_of st w);
    cbn [mux _run watchers results_queue manage_resource_version
         quit_on_timeout started];
    destruct (_run (mux st)) eqn:E;
    cbn [mux _run watchers results_queue manage_resource_version
         quit_on_timeout started];
    rewrite ?E; reflexivity.
Qed.

Lemma elem_of_members (st : State) (w : nat) :
  w ∈ members st <-> exists k, watchers (mux st) !! k = Some w.
Proof.
  unfold members. rewrite list_elem_of_fmap. split.
  - intros ([k w'] & -> & H). exists k. apply elem_of_map_to_list, H.
  - intros [k H]. exists (k, w). split; [reflexivity|].
    apply elem_of_map_to_list, H.
Qed.

Lemma at_most_one_entry (k : string) (st : State) :
  (length (entries_for k st) <= 1)%nat.
Proof.
  unfold entries_for.
  pose proof (NoDup_fst_map_to_list (watchers (mux st))) as Hnd.
  induction (map_to_list (watchers (mux st))) as [|[k1 w1] l IH];
    [simpl; lia|].
  rewrite fmap_cons in Hnd. apply NoDup_cons in Hnd as [Hk1 Hnd].
  rewrite filter_cons. destruct (decide ((k1, w1).1 = k)) as [Hk|Hk].
  - cbn [fst] in Hk. subst k1.
    assert (filter (fun kw : string * nat => kw.1 = k) l = []) as ->;
      [|simpl; lia].
    apply elem_of_nil_inv. intros [k2 w2] Hin.
    apply list_elem_of_filter in Hin as [Hk2 Hin].
    cbn [fst] in Hk2. subst k2. apply Hk1.
    apply list_elem_of_fmap. exists (k, w2). auto.
  - apply IH, Hnd.
Qed.

Lemma key_of_stop (w w' : nat) (st : State) :
  key_of (on_watcher W.stop w st) w' = key_of st w'.
Proof.
  unfold key_of. rewrite watcher_on_watcher.
  destruct (decide (w = w')) as [->|]; reflexivity.
Qed.

Lemma del_watcher_mux (w : nat) (st : State) :
  mux (del_watcher w st)
  = set_watchers (delete (key_of st w) (watchers (mux st))) (mux st).
Proof. unfold del_watcher. rewrite key_of_stop. reflexivity. Qed.

Lemma del_watcher_heap (w : nat) (st : State) :
  heap (del_watcher w st) = heap (on_watcher W.stop w st).
Proof. reflexivity. Qed.

Lemma stop_mux (st : State) : mux (stop st) = set_run false (mux st).
Proof.
  unfold stop. destruct (stop_each (members st) (base_stop st)) as [-> _].
  reflexivity.
Qed.

Lemma update_mux (v : PyVal) (w : nat) (st st' : State) :
  update_resource_version v w st = Ok st' -> mux st' = mux st.
Proof.
  unfold update_resource_version.
  destruct (W.update_resource_version v (watcher st w)); [|discriminate].
  intros [= <-]. reflexivity.
Qed.

(** The membership after one action of the environment. *)
Lemma apply_op_watchers (op : Op) (st : State) :
  watchers (mux (apply_op op st)) =
  match op with
  | MuxAdd w => <[key_of st w := w]> (watchers (mux st))
  | MuxDel w => delete (key_of st w) (watchers (mux st))
  | _ => watchers (mux st)
  end.
Proof.
  destruct op as [w|w|w v| | |w|w|we]; cbn [apply_op]; try reflexivity.
  - destruct (update_resource_version v w st) as [st'|] eqn:E; [|reflexivity].
    rewrite (update_mux _ _ _ _ E). reflexivity.
  - rewrite stop_mux. reflexivity.
  - rewrite add_watcher_mux. reflexivity.
  - rewrite del_watcher_mux. reflexivity.
Qed.

(** The queue after one action of the environment: nothing is taken out. *)
Lemma apply_op_queue (op : Op) (st : State) :
  results_queue (mux (apply_op op st)) =
  results_queue (mux st) ++ Worker.puts [op].
Proof.
  destruct op as [w|w|w v| | |w|w|we]; cbn [apply_op Worker.puts omap];
    rewrite ?app_nil_r; try reflexivity.
  - destruct (update_resource_version v w st) as [st'|] eqn:E; [|reflexivity].
    rewrite (update_mux _ _ _ _ E). reflexivity.
  - rewrite stop_mux. reflexivity.
  - rewrite add_watcher_mux. reflexivity.
Qed.

(** What the coordinator and the Watcher methods do to a Watcher object
    keeps the highest version it has observed. *)
Lemma highest_on_watcher (f : W.Watcher -> W.Watcher) (w w' : nat)
    (st : State) :
  (forall x, W.highest_resource_version (f x) = W.highest_resource_version x) ->
  highest (on_watcher f w st) w' = highest st w'.
Proof.
  intros Hf. unfold highest. rewrite watcher_on_watcher.
  destruct (decide (w = w')) as [->|]; [apply Hf|reflexivity].
Qed.

Lemma highest_update (v : PyVal) (w w' : nat) (st st' : State) :
  update_resource_version v w st = Ok st' -> highest st' w' = highest st w'.
Proof.
  unfold update_resource_version, W.update_resource_version.
  destruct v; [discriminate|..]; intros [= <-]; unfold highest;
    rewrite watcher_on_watcher; destruct (decide (w = w')) as [->|];
    reflexivity.
Qed.

Lemma highest_apply_op (op : Op) (w : nat) (st : State) :
  highest (apply_op op st) w = highest st w.
Proof.
  destruct op as [w'|w'|w' v| | |w'|w'|we]; cbn [apply_op].
  - apply highest_on_watcher. reflexivity.
  - apply highest_on_watcher. reflexivity.
  - destruct (update_resource_version v w' st) as [st'|] eqn:E;
      [apply (highest_update _ _ _ _ _ E)|reflexivity].
  - unfold highest, stop.
    destruct (stop_each (members st) (base_stop st)) as [_ ->].
    destruct (decide (w ∈ members st)); reflexivity.
  - reflexivity.
  - pose proof (add_watcher_heap w' st) as Hh. unfold highest.
    destruct (watchers (mux st) !! key_of st w');
      rewrite (watcher_heap _ _ w Hh); [|reflexivity].
    apply (highest_on_watcher W.stop). reflexivity.
  - unfold highest. rewrite (watcher_heap _ _ w (del_watcher_heap w' st)).
    apply (highest_on_watcher W.stop). reflexivity.
  - reflexivity.
Qed.

Lemma highest_apply_ops (ops : list Op) (w : nat) (st : State) :
  highest (apply_ops ops st) w = highest st w.
Proof.
  unfold apply_ops. revert st. induction ops as [|op ops IH]; intros st;
    cbn [foldl]; [reflexivity|]. rewrite IH. apply highest_apply_op.
Qed.

End MuxFacts.

Module MuxOps.
Import Py Mux MuxFacts Examples.

(** C9.  [MultiplexingWatcher.stop()] clears the coordinator's running
    flag and calls [stop()] on every registered member; the membership
    dictionary, the queue, the stored policy and the list of started workers
    are unchanged, and so is every Watcher that is not registered. *)
Theorem stop_only_stops (st : State) :
  isrunning (stop st) = false /\
  watchers (mux (stop st)) = watchers (mux st) /\
  results_queue (mux (stop st)) = results_queue (mux st) /\
  manage_resource_version (mux (stop st)) = manage_resource_version (mux st) /\
  quit_on_timeout (mux (stop st)) = quit_on_timeout (mux st) /\
  started (mux (stop st)) = started (mux st) /\
  (forall k w, watchers (mux st) !! k = Some w ->
               watcher (stop st) w = W.stop (watcher st w)) /\
  (forall w, (forall k, watchers (mux st) !! k <> Some w) ->
             watcher (stop st) w = watcher st w).
Proof.
  unfold stop. destruct (stop_each (members st) (base_stop st)) as [Hm Hw].
  unfold isrunning. rewrite Hm. repeat split.
  - intros k w Hk. rewrite Hw.
    destruct (decide (w ∈ members st)) as [_|Hn]; [reflexivity|].
    exfalso. apply Hn, elem_of_members. eauto.
  - intros w Hk. rewrite Hw.
    destruct (decide (w ∈ members st)) as [Hin|_]; [|reflexivity].
    apply elem_of_members in Hin as [k Hin]. destruct (Hk k Hin).
Qed.

Lemma stop_only_stops_witness :
  watcher (stop streaming) 0 = W.stop (watcher streaming 0) /\
  watcher (stop streaming) 1 = watcher streaming 1.
Proof.
  destruct (stop_only_stops streaming) as (_ & _ & _ & _ & _ & _ & Hs & Ho).
  split.
  - apply (Hs (W.cls_id Role)). reflexivity.
  - apply Ho. intros k Hk.
    assert (1%nat ∈ members streaming) as Hin
      by (apply elem_of_members; eauto).
    vm_compute in Hin. apply elem_of_cons in Hin as [Hin|Hin];
      [discriminate|].
    apply list_elem_of_singleton in Hin. discriminate.
Defined.

(** C5.  [add_watcher(watcher)] stops the Watcher registered so far for
    the same kind, if any, and leaves every other Watcher object alone
    (the new one included, unless it is itself the registered one);
    afterwards the dictionary maps the kind to the new Watcher and is
    unchanged at every other kind, so it lists at most one entry per kind;
    when the coordinator is running a worker for the new Watcher is started
    at once, otherwise none is. *)
Theorem add_watcher_replaces (w : nat) (st : State) :
  let k := key_of st w in
  let st' := add_watcher w st in
  watchers (mux st') = <[k := w]> (watchers (mux st)) /\
  (forall current, watchers (mux st) !! k = Some current ->
                   watcher st' current = W.stop (watcher st current)) /\
  (forall w', watchers (mux st) !! k <> Some w' ->
              watcher st' w' = watcher st w') /\
  (forall k', (length (entries_for k' st') <= 1)%nat) /\
  started (mux st') =
    (if isrunning st then started (mux st) ++ [w] else started (mux st)) /\
  isrunning st' = isrunning st /\
  results_queue (mux st') = results_queue (mux st).
Proof.
  intros k st'.
  pose proof (add_watcher_heap w st) as Hheap. fold k in Hheap.
  pose proof (add_watcher_mux w st) as Hmux. fold k st' in Hheap, Hmux.
  unfold isrunning. rewrite !Hmux.
  split; [reflexivity|]. split; [|split; [|split; [|split; [|split]]]].
  - intros cur Hcur. rewrite Hcur in Hheap.
    rewrite (watcher_heap _ _ cur Hheap), watcher_on_watcher.
    destruct (decide (cur = cur)); [reflexivity|congruence].
  - intros w' Hw'.
    destruct (watchers (mux st) !! k) as [cur|];
      rewrite (watcher_heap _ _ w' Hheap); [|reflexivity].
    rewrite watcher_on_watcher.
    destruct (decide (cur = w')); [congruence|reflexivity].
  - intros k'. apply at_most_one_entry.
  - cbn. destruct (_run (mux st)); reflexivity.
  - reflexivity.
  - reflexivity.
Qed.

Lemma add_watcher_replaces_witness :
  watcher (add_watcher 1 streaming) 0 = W.stop (watcher streaming 0) /\
  watchers (mux (add_watcher 1 streaming)) !! W.cls_id Role = Some 1%nat /\
  started (mux (add_watcher 1 streaming)) = started (mux streaming) ++ [1%nat].
Proof.
  destruct (add_watcher_replaces 1 streaming) as (Hw & Hs & _ & _ & Ht & _).
  split; [apply Hs; reflexivity|]. split.
  - rewrite Hw. reflexivity.
  - rewrite Ht. reflexivity.
Defined.

(** C6 as stated fails: a running coordinator whose membership is empty
    ends its sequence, here with an event still in the queue. *)
Lemma stream_ends_on_empty_membership :
  isrunning running_without_members = true /\
  results_queue (mux running_without_members) = [role_added "7"] /\
  Worker.poll running_without_members
  = (Worker.Stopped, running_without_members) /\
  Worker.consume [[]; []] running_without_members
  = (running_without_members, [], Worker.MuxReturned).
Proof. repeat split. Qed.

Lemma poll_stopped (st : State) :
  (Worker.poll st).1 = Worker.Stopped <->
  isrunning st = false \/ watchers (mux st) = ∅.
Proof.
  unfold Worker.poll. destruct (isrunning st); cbn [andb].
  - destruct (decide (watchers (mux st) = ∅)) as [He|Hne].
    + rewrite bool_decide_eq_true_2 by exact He. cbn. tauto.
    + rewrite bool_decide_eq_false_2 by exact Hne. cbn [negb].
      destruct (results_queue (mux st)); cbn;
        (split; [discriminate|intros [?|?]; congruence]).
  - cbn. tauto.
Qed.

Lemma poll_state_stopped (st st' : State) :
  Worker.poll st = (Worker.Stopped, st') -> st' = st.
Proof.
  unfold Worker.poll.
  destruct (isrunning st && _)%bool; [|congruence].
  destruct (results_queue (mux st)); discriminate.
Qed.

Lemma consume_returned (script : list (list Op)) (st st' : State)
    (out : list WatchEvent) :
  Worker.consume script st = (st', out, Worker.MuxReturned) ->
  isrunning st' = false \/ watchers (mux st') = ∅.
Proof.
  revert st st' out. induction script as [|ops rest IH]; intros st st' out;
    cbn [Worker.consume]; destruct (Worker.poll st) as [[we| |] st1] eqn:E;
    try discriminate.
  - intros [= <- _]. pose proof (poll_state_stopped _ _ E) as ->.
    apply poll_stopped. rewrite E. reflexivity.
  - destruct (Worker.consume rest (apply_ops ops st1)) as [[st2 o] e] eqn:E2.
    intros [= <- _ ->]. eapply IH, E2.
  - intros H. eapply IH, H.
  - intros [= <- _]. pose proof (poll_state_stopped _ _ E) as ->.
    apply poll_stopped. rewrite E. reflexivity.
Qed.

(** C6, amended.  Each turn of the coordinator's loop ends the merged
    sequence exactly when the running flag is false or the membership is
    empty, also while the coordinator is running; otherwise it takes the
    oldest item of the queue and yields it, or finds the queue empty after
    the bounded wait and goes round again.  A run of the loop that ended
    left the coordinator stopped or without members. *)
Theorem merged_sequence_ends_iff (st : State) :
  ((Worker.poll st).1 = Worker.Stopped <->
     isrunning st = false \/ watchers (mux st) = ∅) /\
  (forall we q,
     isrunning st = true -> watchers (mux st) <> ∅ ->
     results_queue (mux st) = we :: q ->
     Worker.poll st = (Worker.Got we, on_mux (set_queue q) st)) /\
  (isrunning st = true -> watchers (mux st) <> ∅ ->
   results_queue (mux st) = [] ->
   Worker.poll st = (Worker.Empty, st)) /\
  (forall script st' out,
     Worker.consume script st = (st', out, Worker.MuxReturned) ->
     isrunning st' = false \/ watchers (mux st') = ∅).
Proof.
  split; [apply poll_stopped|]. split; [|split].
  - intros we q Hr Hw Hq. unfold Worker.poll.
    rewrite Hr, Hq, bool_decide_eq_false_2 by exact Hw. reflexivity.
  - intros Hr Hw Hq. unfold Worker.poll.
    rewrite Hr, Hq, bool_decide_eq_false_2 by exact Hw. reflexivity.
  - intros script st' out. apply consume_returned.
Qed.

Lemma merged_sequence_ends_iff_witness :
  Worker.poll (put (role_added "7") streaming)
  = (Worker.Got (role_added "7"),
     on_mux (set_queue []) (put (role_added "7") streaming)).
Proof.
  destruct (merged_sequence_ends_iff (put (role_added "7") streaming))
    as (_ & H & _).
  apply H; [reflexivity| |reflexivity].
  intros Hempty.
  assert (watchers (mux (put (role_added "7") streaming))
          !! W.cls_id Role = None) as Hn by (rewrite Hempty; reflexivity).
  vm_compute in Hn. discriminate Hn.
Defined.

End MuxOps.

(** ** [Watcher.stream]: the cursor of each request *)

Module StreamFacts.
Import Py Re Mux Stream MuxFacts PyFactsMore ReFacts Examples.

Lemma watcher_same (f : W.Watcher -> W.Watcher) (w : nat) (st : State) :
  watcher (on_watcher f w st) w = f (watcher st w).
Proof.
  rewrite watcher_on_watcher. destruct (decide (w = w)); congruence.
Qed.

Lemma update_str (g : string) (w : nat) (st : State) :
  update_resource_version (PyStr g) w st
  = Ok (on_watcher (W.set_resource_version g) w st).
Proof. reflexivity. Qed.

Lemma update_int (z : Z) (w : nat) (st : State) :
  update_resource_version (PyInt z) w st
  = Ok (on_watcher (W.set_resource_version (str_int z)) w st).
Proof. reflexivity. Qed.

(** The [for] loop of the main loop opens nothing: it only yields. *)
Lemma pump_yields sink w its st st' obs fe :
  pump sink w its st = (st', obs, fe) ->
  forall ph kw h, Open ph kw h ∉ obs.
Proof.
  revert st st' obs fe. induction its as [|[e ops|op] rest IH];
    intros st st' obs fe; cbn [pump].
  - intros [= <- <- <-] ph kw h H. inversion H.
  - destruct (negb (W.isrunning (watcher st w)));
      [intros [= <- <- <-] ph kw h H; inversion H|].
    destruct (event_version (raw_object e)) as [v|exn];
      [|intros [= <- <- <-] ph kw h H; inversion H].
    match goal with
    | |- context [if negb (W.isrunning (watcher ?s w)) then _ else _] =>
        destruct (negb (W.isrunning (watcher s w)));
          [intros [= <- <- <-] ph kw h H; inversion H|]
    end.
    match goal with
    | |- context [if negb (W.isrunning (watcher ?s w)) then _ else _] =>
        destruct (negb (W.isrunning (watcher s w)))
    end.
    + intros [= <- <- <-] ph kw h H.
      apply list_elem_of_singleton in H. discriminate.
    + match goal with
      | |- context [pump sink w rest ?s] =>
          destruct (pump sink w rest s) as [[s3 o3] f3] eqn:E
      end.
      intros [= <- <- <-] ph kw h H.
      apply elem_of_cons in H as [H|H]; [discriminate|].
      eapply IH; eauto.
  - apply IH.
Qed.

Lemma round_yields sink w manage quit r st obs nx :
  round sink w manage quit r st = (obs, nx) ->
  forall ph kw h, Open ph kw h ∉ obs.
Proof.
  unfold round. destruct (pump sink w (items r) st) as [[st1 o] fe] eqn:E.
  intros [= <- _]. eapply pump_yields, E.
Qed.

(** After the adjustment at the head of the loop, a cursor that is set is
    a number not below the highest version observed. *)
Lemma advance_covers w st st1 :
  advance w true st = Ok st1 ->
  forall s, W.current_resource_version (watcher st1 w) = Some s ->
            exists n, int s = Some n /\
                      W.highest_resource_version (watcher st1 w) <= n.
Proof.
  unfold advance.
  destruct (W.current_resource_version (watcher st w)) as [s0|] eqn:Hc.
  - destruct (int s0) as [n|] eqn:Hn; [|discriminate].
    destruct (W.highest_resource_version (watcher st w) >? n) eqn:Hgt.
    + rewrite update_int. intros [= <-] s. rewrite watcher_same.
      cbn. intros [= <-]. eexists. split; [apply int_str_int|lia].
    + intros [= <-] s Hs. rewrite Hc in Hs. injection Hs as <-.
      exists n. split; [exact Hn|lia].
  - intros [= <-] s Hs. congruence.
Qed.

Lemma loop_requests sink w quit script st :
  Forall main_request_ok (trace (loop sink w true quit script st)).
Proof.
  revert st. induction script as [|r rest IH]; intros st; cbn [loop];
    destruct (negb (W.isrunning (watcher st w))); try constructor;
    destruct (advance w true st) as [st1|exn] eqn:Ha; try constructor.
  destruct (round sink w true quit r st1) as [obs nx] eqn:Er.
  assert (Forall main_request_ok obs) as Hobs.
  { apply Forall_forall. intros [ph kw h|we] Hin; [|exact I].
    destruct (round_yields _ _ _ _ _ _ _ _ Er ph kw h Hin). }
  assert (main_request_ok
            (Open Main (W.kwargs (watcher st1 w))
               (W.highest_resource_version (watcher st1 w)))) as Hopen.
  { cbn. apply (advance_covers _ _ _ Ha). }
  destruct nx as [st2|st2 out]; cbn [trace emit].
  - constructor; [exact Hopen|]. apply Forall_app. split; [exact Hobs|apply IH].
  - constructor; [exact Hopen|exact Hobs].
Qed.

Lemma dominate_mono (t : list Obs) (s s' : Z) :
  s <= s' -> requests_dominate s' t -> requests_dominate s t.
Proof.
  revert s s'. induction t as [|[ph kw h|we] t IH]; intros s s' Hs;
    cbn [requests_dominate]; [auto| |].
  - intros [Hh Ht]. split; [lia|]. eapply IH; [|exact Ht]. lia.
  - destruct (event_version (obj we)); apply IH; lia.
Qed.

Lemma dominate_app (t1 t2 : list Obs) (s : Z) :
  requests_dominate s t1 -> requests_dominate (seen_after s t1) t2 ->
  requests_dominate s (t1 ++ t2).
Proof.
  revert s. induction t1 as [|[ph kw h|we] t1 IH]; intros s;
    cbn [requests_dominate seen_after app]; [auto| |].
  - intros [Hh H1] H2. split; [exact Hh|]. apply IH; assumption.
  - apply IH.
Qed.

(** The [for] loop only raises the highest version, above the version of
    each event it yields. *)
Lemma pump_highest sink w its st st' obs fe :
  (forall we s, highest (sink we s) w = highest s w) ->
  pump sink w its st = (st', obs, fe) ->
  forall s, s <= highest st w ->
            seen_after s obs <= highest st' w /\ requests_dominate s obs.
Proof.
  intros Hsink. revert st st' obs fe.
  induction its as [|[e ops|op] rest IH]; intros st st' obs fe; cbn [pump].
  - intros [= <- <- <-] s Hs. cbn. auto.
  - destruct (negb (W.isrunning (watcher st w)));
      [intros [= <- <- <-] s Hs; cbn; auto|].
    destruct (event_version (raw_object e)) as [v|exn] eqn:Ev;
      [|intros [= <- <- <-] s Hs; cbn; auto].
    set (st1 := if v >? W.highest_resource_version (watcher st w)
                then on_watcher (W.set_highest v) w st else st).
    assert (highest st w <= highest st1 w /\ v <= highest st1 w) as [H1 H2].
    { subst st1. unfold highest.
      destruct (v >? W.highest_resource_version (watcher st w)) eqn:Hgt.
      - rewrite watcher_same. cbn. lia.
      - lia. }
    destruct (negb (W.isrunning (watcher st1 w)));
      [intros [= <- <- <-] s Hs; cbn; split; [lia|exact I]|].
    set (st2 := apply_ops ops (sink _ st1)).
    assert (highest st2 w = highest st1 w) as H3.
    { subst st2. rewrite highest_apply_ops. apply Hsink. }
    destruct (negb (W.isrunning (watcher st2 w))).
    + intros [= <- <- <-] s Hs. cbn [seen_after requests_dominate obj].
      rewrite Ev. split; [lia|exact I].
    + destruct (pump sink w rest st2) as [[st3 o3] f3] eqn:E.
      intros [= <- <- <-] s Hs. cbn [seen_after requests_dominate obj].
      rewrite Ev. apply (IH _ _ _ _ E). lia.
  - intros H s Hs. apply (IH _ _ _ _ H). rewrite highest_apply_op. exact Hs.
Qed.

Lemma advance_highest w manage st st1 :
  advance w manage st = Ok st1 -> highest st1 w = highest st w.
Proof.
  unfold advance. destruct manage; [|intros [= <-]; reflexivity].
  destruct (W.current_resource_version (watcher st w));
    [|intros [= <-]; reflexivity].
  destruct (int s); [|discriminate].
  destruct (_ >? z); [|intros [= <-]; reflexivity].
  apply highest_update.
Qed.

Lemma on_exception_highest w manage exn st :
  match on_exception w manage exn st with
  | Continue st' | Stop st' _ => highest st' w = highest st w
  end.
Proof.
  unfold on_exception. destruct exn; try reflexivity.
  destruct (Z.eqb status 410 && manage)%bool; [|reflexivity].
  destruct (rvre_search reason); [|reflexivity].
  rewrite update_str. apply highest_on_watcher. reflexivity.
Qed.

Lemma round_highest sink w manage quit r st obs nx :
  (forall we s, highest (sink we s) w = highest s w) ->
  round sink w manage quit r st = (obs, nx) ->
  forall s, s <= highest st w ->
    requests_dominate s obs /\
    match nx with
    | Continue st' | Stop st' _ => seen_after s obs <= highest st' w
    end.
Proof.
  intros Hsink. unfold round.
  destruct (pump sink w (items r) st) as [[st1 o] fe] eqn:E.
  intros [= <- <-] s Hs.
  destruct (pump_highest _ _ _ _ _ _ _ Hsink E s Hs) as [H1 H2].
  split; [exact H2|].
  assert (forall exn, match on_exception w manage exn st1 with
                      | Continue st' | Stop st' _ =>
                          seen_after s o <= highest st' w
                      end) as Hex.
  { intros exn. pose proof (on_exception_highest w manage exn st1) as H.
    destruct (on_exception w manage exn st1); rewrite H; exact H1. }
  assert (match on_timeout w quit st1 with
          | Continue st' | Stop st' _ => seen_after s o <= highest st' w
          end) as Hto.
  { unfold on_timeout. destruct (_ && quit)%bool; exact H1. }
  destruct fe; [destruct (ending r)|..]; first [exact Hto|apply Hex].
Qed.

Lemma loop_dominates sink w manage quit script st :
  (forall we s, highest (sink we s) w = highest s w) ->
  forall s, s <= highest st w ->
            requests_dominate s (trace (loop sink w manage quit script st)).
Proof.
  intros Hsink. revert st. induction script as [|r rest IH]; intros st s Hs;
    cbn [loop]; destruct (negb (W.isrunning (watcher st w))); try exact I;
    destruct (advance w manage st) as [st1|exn] eqn:Ha; try exact I.
  pose proof (advance_highest _ _ _ _ Ha) as Hh.
  destruct (round sink w manage quit r st1) as [obs nx] eqn:Er.
  assert (Z.max s (highest st1 w) <= highest st1 w) as Hmax by lia.
  destruct (round_highest _ _ _ _ _ _ _ _ Hsink Er _ Hmax) as [Hobs Hnx].
  destruct nx as [st2|st2 out]; cbn [trace emit app requests_dominate];
    fold (highest st1 w); (split; [lia|]).
  - apply dominate_app; [exact Hobs|]. apply IH. exact Hnx.
  - exact Hobs.
Qed.

Lemma prime_pump_highest w its st st' b :
  prime_pump its st = (st', b) -> highest st' w = highest st w.
Proof.
  revert st. induction its as [|[e ops|op] rest IH]; intros st;
    cbn [prime_pump]; try (intros [= <- _]; reflexivity).
  intros H. rewrite (IH _ H). apply highest_apply_op.
Qed.

Lemma prime_highest w r st :
  match prime w r st with
  | Continue st' | Stop st' _ => highest st' w = highest st w
  end.
Proof.
  unfold prime. destruct (prime_pump (items r) st) as [st1 b] eqn:E.
  pose proof (prime_pump_highest w _ _ _ _ E) as H.
  destruct b; [exact H|]. destruct (ending r) as [|[status reason| | | | |]];
    try exact H.
  destruct (Z.eqb status 410 && _)%bool; [|exact H].
  destruct (rvre_search reason); [|exact H].
  rewrite update_str, highest_on_watcher; [exact H|reflexivity].
Qed.

(** X5.  In every run of [stream], managed or not, when the consumer's
    loop body leaves the Watcher's highest version alone, the highest version
    recorded at each request is at least the one recorded before the run and
    at least the version of every event the run yielded before that
    request. *)
Lemma stream_dominates sink w manage quit script st :
  (forall we s, highest (sink we s) w = highest s w) ->
  requests_dominate (highest st w)
    (trace (stream sink w manage quit script st)).
Proof.
  intros Hsink. unfold stream.
  set (st0 := on_watcher _ w (on_watcher W.start w st)).
  assert (highest st0 w = highest st w) as H0.
  { subst st0. rewrite !highest_on_watcher; reflexivity. }
  rewrite <- H0.
  destruct (manage && _)%bool; [|apply loop_dominates; [exact Hsink|lia]].
  destruct script as [|r rest]; [exact I|].
  pose proof (prime_highest w r st0) as Hp.
  destruct (prime w r st0) as [st1|st1 out];
    cbn [trace emit app requests_dominate]; fold (highest st0 w);
    (split; [lia|]); [|exact I].
  apply loop_dominates; [exact Hsink|lia].
Qed.

(** C1 as stated fails: a Watcher that observed version 100 and is
    streamed again with cursor management, still without a cursor, sends
    its priming request with the cursor ['1']. *)
Lemma priming_request_below_highest :
  W.highest_resource_version (watcher (final first_run) 0) = 100 /\
  Open Priming
    (W.kw_set_resource_version "1" (W.kwargs (watcher (final first_run) 0)))
    100 ∈ trace second_run /\
  ~ all_requests_covered (trace second_run).
Proof.
  assert (Open Priming
            (W.kw_set_resource_version "1"
               (W.kwargs (watcher (final first_run) 0)))
            100 ∈ trace second_run) as Hin by (vm_compute; left).
  split; [vm_compute; reflexivity|]. split; [exact Hin|].
  intros H. destruct (H _ _ _ Hin) as (s & n & Hs & Hn & Hle).
  cbn [W.resource_version W.kw_set_resource_version] in Hs.
  injection Hs as <-. vm_compute in Hn. injection Hn as <-.
  apply Hle. reflexivity.
Qed.

(** C1, amended.  In every run of [stream(manage_resource_version=True)],
    whatever the transport, the consumer and other threads do, each request
    of the main loop that carries a cursor carries a number not below the
    highest version the Watcher has observed when the request is made; the
    priming request, made when the Watcher has no cursor, carries ['1']
    whatever has been observed. *)
Theorem managed_requests_cover_highest
    (sink : WatchEvent -> State -> State) (w : nat) (quit : bool)
    (script : list Response) (st : State) :
  let t := trace (stream sink w true quit script st) in
  (forall kw h s,
     Open Main kw h ∈ t -> W.resource_version kw = Some s ->
     exists n, int s = Some n /\ h <= n) /\
  (forall kw h, Open Priming kw h ∈ t -> W.resource_version kw = Some "1").
Proof.
  intros t. assert (Forall main_request_ok t) as Hall.
  { subst t. unfold stream. cbn [andb].
    match goal with
    | |- context [bool_decide ?P] => destruct (bool_decide P)
    end; [|apply loop_requests].
    destruct script as [|r rest]; [constructor|].
    match goal with
    | |- context [prime w r ?s] => destruct (prime w r s) as [st1|st1 out]
    end; cbn [trace emit].
    - apply Forall_app. split; [|apply loop_requests].
      constructor; [reflexivity|constructor].
    - constructor; [reflexivity|constructor]. }
  rewrite Forall_forall in Hall. split.
  - intros kw h s Hin. apply (Hall _ Hin).
  - intros kw h Hin. apply (Hall _ Hin).
Qed.

Lemma managed_requests_cover_highest_witness :
  exists n, int "100" = Some n /\ 100 <= n.
Proof.
  destruct (managed_requests_cover_highest standalone 0 false second_script
              (final first_run)) as [H _].
  apply (H (W.kw_set_resource_version "100" (W.kwargs role_watcher)) 100 "100").
  - vm_compute. right. left.
  - reflexivity.
Defined.

Lemma on_exception_gone w reason st :
  on_exception w true (ApiException 410 reason) st =
  match rvre_search reason with
  | Some g => Continue (on_watcher (W.set_resource_version g) w st)
  | None => Stop st (Raised (ApiException 410 reason))
  end.
Proof. unfold on_exception. cbn. destruct (rvre_search reason); reflexivity. Qed.

Lemma search_of_paren_number (reason : string) :
  has_paren_number reason ->
  exists g, rvre_search reason = Some g /\ paren_number g reason.
Proof.
  intros [g0 H0]. destruct (rvre_search_complete _ _ H0) as [g Hg].
  exists g. split; [exact Hg|]. apply rvre_search_sound, Hg.
Qed.

Lemma advance_after_recovery w g st :
  g <> EmptyString -> all_chars is_digit g = true ->
  W.current_resource_version (watcher st w) = Some g ->
  exists st', advance w true st = Ok st'.
Proof.
  intros Hne Hd Hc. unfold advance. rewrite Hc.
  destruct (int_of_digits g Hne Hd) as [n ->].
  destruct (_ >? n); [rewrite update_int|]; eauto.
Qed.

(** C3 as stated fails in the priming request: status 410 with a
    parenthesized number in the reason, but a reason that does not start with
    ['Expired:'], is raised to the caller and the cursor stays unset. *)
Lemma priming_raises_gone_with_number :
  has_paren_number "Gone: past history (12345)" /\
  outcome primed_with_gone = Raised gone /\
  W.current_resource_version (watcher (final primed_with_gone) 0) = None.
Proof.
  split; [|split; reflexivity].
  exists "12345", "Gone: past history ", "". repeat split. discriminate.
Qed.

(** C3, amended.  With cursor management on, a transport error of status
    410 that ends a request of the main loop is handled by the reason text
    alone: when it contains a parenthesized number the cursor becomes the
    leftmost such number and the loop goes on with the next request, whose
    cursor adjustment cannot fail; when it contains none the error is raised
    to the caller.  In the priming request the same recovery needs, in
    addition, a reason that starts with ['Expired:']; every other 410 error
    is raised to the caller. *)
Theorem history_gone_recovery
    (sink : WatchEvent -> State -> State) (w : nat) (quit : bool)
    (reason : string) :
  (forall r rest st st1 st2 obs,
     W.isrunning (watcher st w) = true ->
     advance w true st = Ok st1 ->
     pump sink w (items r) st1 = (st2, obs, ForDone) ->
     ending r = Fail (ApiException 410 reason) ->
     let o := Open Main (W.kwargs (watcher st1 w))
                (W.highest_resource_version (watcher st1 w)) in
     (has_paren_number reason ->
        exists g st3,
          rvre_search reason = Some g /\ paren_number g reason /\
          st3 = on_watcher (W.set_resource_version g) w st2 /\
          W.current_resource_version (watcher st3 w) = Some g /\
          loop sink w true quit (r :: rest) st
          = emit (o :: obs) (loop sink w true quit rest st3) /\
          exists st4, advance w true st3 = Ok st4) /\
     (~ has_paren_number reason ->
        loop sink w true quit (r :: rest) st
        = {| final := st2; trace := o :: obs;
             outcome := Raised (ApiException 410 reason) |})) /\
  (forall r st st1,
     prime_pump (items r) st = (st1, false) ->
     ending r = Fail (ApiException 410 reason) ->
     (startswith_Expired reason = true -> has_paren_number reason ->
        exists g,
          rvre_search reason = Some g /\ paren_number g reason /\
          prime w r st = Continue (on_watcher (W.set_resource_version g) w st1)) /\
     (startswith_Expired reason = false \/ ~ has_paren_number reason ->
        prime w r st = Stop st1 (Raised (ApiException 410 reason)))).
Proof.
  split.
  - intros r rest st st1 st2 obs Hrun Ha Hp He o.
    assert (loop sink w true quit (r :: rest) st =
            match rvre_search reason with
            | Some g =>
                emit (o :: obs)
                  (loop sink w true quit rest
                     (on_watcher (W.set_resource_version g) w st2))
            | None => {| final := st2; trace := o :: obs;
                         outcome := Raised (ApiException 410 reason) |}
            end) as Hloop.
    { cbn [loop]. rewrite Hrun. cbn [negb]. rewrite Ha. unfold round.
      rewrite Hp, He, on_exception_gone.
      destruct (rvre_search reason); reflexivity. }
    split.
    + intros Hhas. destruct (search_of_paren_number _ Hhas) as (g & Hg & Hpn).
      exists g, (on_watcher (W.set_resource_version g) w st2).
      rewrite Hloop, Hg. repeat split; try assumption.
      * rewrite watcher_same. reflexivity.
      * destruct Hpn as (_ & _ & _ & Hne & Hd).
        apply (advance_after_recovery w g _ Hne Hd).
        rewrite watcher_same. reflexivity.
    + intros Hno. apply rvre_search_None in Hno. rewrite Hloop, Hno.
      reflexivity.
  - intros r st st1 Hp He. unfold prime. rewrite Hp, He. cbn [Z.eqb andb].
    change (Z.eqb 410 410) with true. cbn [andb]. split.
    + intros Hx Hhas. destruct (search_of_paren_number _ Hhas) as (g & Hg & Hpn).
      exists g. rewrite Hx, Hg, update_str. auto.
    + intros [Hx|Hno].
      * rewrite Hx. reflexivity.
      * apply rvre_search_None in Hno. rewrite Hno.
        destruct (startswith_Expired reason); reflexivity.
Qed.

Lemma history_gone_recovery_witness :
  exists g st3,
    rvre_search "Expired: past history (12345)" = Some g /\
    W.current_resource_version (watcher st3 0) = Some g /\
    loop standalone 0 true true [fails_with expired; idle] started_with_cursor
    = emit [Open Main (W.kwargs (watcher started_with_cursor 0)) (-1)]
        (loop standalone 0 true true [idle] st3).
Proof.
  destruct (history_gone_recovery standalone 0 true
              "Expired: past history (12345)") as [H _].
  destruct (H (fails_with expired) [idle] started_with_cursor
              started_with_cursor started_with_cursor []
              eq_refl eq_refl eq_refl eq_refl) as [Hyes _].
  destruct Hyes as (g & st3 & Hg & _ & _ & Hc & Hl & _).
  { exists "12345", "Expired: past history ", "". repeat split. discriminate. }
  exists g, st3. auto.
Defined.

(** The test of the specification: the reason
    ["Expired: past history (12345)"] sets the cursor to ["12345"] and the
    run goes on to its next request without raising. *)
Lemma expired_sets_cursor :
  outcome recovered = Returned /\
  W.current_resource_version (watcher (final recovered) 0) = Some "12345" /\
  length (trace recovered) = 2%nat.
Proof. vm_compute. repeat split. Qed.

End StreamFacts.

(** ** The worker: failure policy and cleanup *)

Module WorkerFacts.
Import Py Mux Stream Worker MuxFacts StreamFacts Examples.

Lemma del_watcher_removes (w : nat) (st : State) :
  watchers (mux (del_watcher w st)) !! key_of (del_watcher w st) w = None /\
  watchers (mux (del_watcher w st)) !! key_of st w = None /\
  W.isrunning (watcher (del_watcher w st) w) = false.
Proof.
  assert (key_of (del_watcher w st) w = key_of st w) as Hk.
  { unfold key_of. rewrite (watcher_heap _ _ w (del_watcher_heap w st)).
    rewrite watcher_same. reflexivity. }
  rewrite Hk, del_watcher_mux. cbn [watchers set_watchers].
  rewrite lookup_delete_eq. repeat split.
  rewrite (watcher_heap _ _ w (del_watcher_heap w st)), watcher_same.
  reflexivity.
Qed.

(** C2 as stated fails: a callback that returns the string ["continue"]
    does not keep the member; it is stopped and removed and its worker
    ends, although later passes were available. *)
Lemma continue_string_stops_member :
  returns_continue streaming 0%nat boom = (Ok (PyStr "continue"), streaming) /\
  watchers (mux streaming) !! W.cls_id Role = Some 0%nat /\
  let r := _run_watcher (Some returns_continue) 0
             [failing_pass; failing_pass] streaming in
  r.1.2 = [CalledStream 0 false false;
           CalledCallback 0 boom (Ok (PyStr "continue"));
           CalledDelWatcher 0] /\
  r.2 = Finished /\
  watchers (mux r.1.1) !! W.cls_id Role = None /\
  W.isrunning (watcher r.1.1 0) = false.
Proof. vm_compute. repeat split. Qed.

(** C2, amended.  When the member's [stream()] raises [e] in a pass of the
    worker and a callback is present, the callback is called with the
    coordinator's state at that moment, the Watcher and [e].  If it returns
    the value [True], the handler leaves the state as the callback left it
    (the member is neither stopped nor removed) and the worker goes back to
    its loop condition, so the member's stream is started again when the
    member and the coordinator are still running.  For every other result,
    a raised exception included, the member is stopped, removed from
    the membership, and the worker ends without consulting further passes. *)
Theorem failure_policy_decides (cb : Callback) (w : nat) (p : Pass)
    (rest : list Pass) (st st_c : State) (e : PyExn) (res : PyResult PyVal) :
  let st0 := apply_ops (before p) st in
  let manage := flag (manage_resource_version (mux st0)) in
  let quit := flag (quit_on_timeout (mux st0)) in
  let r := Stream.stream (enqueue w) w manage quit (responses p) st0 in
  let did := [CalledStream w manage quit; CalledCallback w e res] in
  isrunning st0 = true ->
  outcome r = Raised e ->
  cb (final r) w e = (res, st_c) ->
  (res = Ok (PyBool true) ->
     _run_watcher (Some cb) w (p :: rest) st =
     (let '(s, d, x) :=
        run_from (Some cb) w (W.isrunning (watcher st_c w)) rest st_c in
      (s, did ++ d, x))) /\
  (res <> Ok (PyBool true) ->
     let st' := del_watcher w (on_watcher W.stop w st_c) in
     _run_watcher (Some cb) w (p :: rest) st =
     (st', did ++ [CalledDelWatcher w], Finished) /\
     watchers (mux st') !! key_of st_c w = None /\
     W.isrunning (watcher st' w) = false).
Proof.
  intros st0 manage quit r did Hrun Hout Hcb.
  assert (attempt (Some cb) w (responses p) st0 =
          Some (if is_True (match res with Ok v => v | Raise _ => PyNone end)
                then st_c else on_watcher W.stop w st_c, did)) as Hatt.
  { unfold attempt. fold manage quit r. rewrite Hout. unfold on_failure.
    rewrite Hcb. destruct res as [v|e']; cbn [negb];
      match goal with |- context [is_True ?x] => destruct (is_True x) end;
      reflexivity. }
  unfold _run_watcher. cbn [run_from negb]. fold st0. rewrite Hrun.
  cbn [negb]. rewrite Hatt. split.
  - intros ->. cbn [is_True]. reflexivity.
  - intros Hres.
    assert (is_True (match res with Ok v => v | Raise _ => PyNone end) = false)
      as ->.
    { destruct res as [[|[]| |]|]; try reflexivity. congruence. }
    rewrite watcher_same. cbn [W.isrunning W.stop W.set_run W._run].
    destruct rest; cbn [run_from negb app];
      (split; [reflexivity|]);
      pose proof (del_watcher_removes w (on_watcher W.stop w st_c))
        as (_ & Hk & Hr);
      rewrite key_of_stop in Hk; auto.
Qed.

Lemma failure_policy_decides_witness :
  (let '(s, d, x) :=
     _run_watcher (Some returns_True) 0
       [event_then_failure "3"; event_then_failure "4"] streaming in
   watchers (mux s) !! W.cls_id Role = Some 0%nat /\
   length (results_queue (mux s)) = 2%nat /\ x = Starved) /\
  (_run_watcher (Some raises) 0 [failing_pass; failing_pass] streaming).2
  = Finished.
Proof.
  split.
  - destruct (failure_policy_decides returns_True 0 (event_then_failure "3")
                [event_then_failure "4"] streaming
                (final (Stream.stream (enqueue 0) 0 false false
                          (responses (event_then_failure "3")) streaming))
                boom (Ok (PyBool true)))
      as [H _]; [reflexivity..|].
    rewrite (H eq_refl). vm_compute. repeat split.
  - destruct (failure_policy_decides raises 0 failing_pass [failing_pass]
                streaming
                (final (Stream.stream (enqueue 0) 0 false false
                          (responses failing_pass) streaming))
                boom (Raise (RuntimeError "callback failed")))
      as [_ H]; [reflexivity..|].
    destruct H as [-> _]; [discriminate|]. reflexivity.
Defined.

Lemma run_from_finished cb w b passes st st' did :
  run_from cb w b passes st = (st', did, Finished) ->
  watchers (mux st') !! key_of st' w = None.
Proof.
  revert b st st' did. induction passes as [|p rest IH]; intros b st st' did;
    cbn [run_from]; destruct b; cbn [negb];
    try (intros [= <- _]; apply del_watcher_removes); try discriminate.
  destruct (negb (isrunning (apply_ops (before p) st)));
    [intros [= <- _]; apply del_watcher_removes|].
  destruct (attempt cb w (responses p) (apply_ops (before p) st))
    as [[st1 d1]|]; [|discriminate].
  destruct (run_from cb w (W.isrunning (watcher st1 w)) rest st1)
    as [[st2 d2] x] eqn:E.
  intros [= <- _ ->]. eapply IH, E.
Qed.

Lemma removal_needs_delete (op : Op) (st : State) (k : string) :
  is_Some (watchers (mux st) !! k) ->
  watchers (mux (apply_op op st)) !! k = None ->
  exists w, op = MuxDel w /\ key_of st w = k.
Proof.
  intros [x Hx]. rewrite apply_op_watchers.
  destruct op as [w|w|w v| | |w|w|we]; try congruence.
  - destruct (decide (key_of st w = k)) as [<-|Hne].
    + rewrite lookup_insert_eq. discriminate.
    + rewrite lookup_insert_ne by exact Hne. congruence.
  - destruct (decide (key_of st w = k)) as [<-|Hne]; [eauto|].
    rewrite lookup_delete_ne by exact Hne. congruence.
Qed.

(** C7 as stated fails: under [quit_on_timeout] a member whose stream
    ends on a routine idle timeout, with no error and no callback call, is
    removed from the membership by its own worker. *)
Lemma quiet_member_removed :
  outcome (Stream.stream (enqueue 0) 0 false true [idle] streaming_quit)
  = Returned /\
  watchers (mux streaming_quit) !! W.cls_id Role = Some 0%nat /\
  let r := _run_watcher None 0 [idle_pass; idle_pass] streaming_quit in
  r.1.2 = [CalledStream 0 false true; CalledDelWatcher 0] /\
  r.2 = Finished /\
  watchers (mux r.1.1) !! W.cls_id Role = None.
Proof. vm_compute. repeat split. Qed.

(** C7, amended.  An action on the shared state removes an entry of the
    membership only if it is [del_watcher], for a Watcher of that kind.  A
    worker calls [del_watcher] on its member whenever its loop ends, so the
    member's kind is not registered once the worker has finished: this holds
    after a failure, and equally when the member's stream ended without
    error and [quit_on_timeout] is set or the member was stopped, and when
    the coordinator is found stopped at the loop condition. *)
Theorem membership_removed_by_delete_or_worker_exit
    (cb : option Callback) (w : nat) :
  (forall op st k,
     is_Some (watchers (mux st) !! k) ->
     watchers (mux (apply_op op st)) !! k = None ->
     exists w', op = MuxDel w' /\ key_of st w' = k) /\
  (forall b passes st st' did,
     run_from cb w b passes st = (st', did, Finished) ->
     watchers (mux st') !! key_of st' w = None) /\
  (forall p rest st,
     let st0 := apply_ops (before p) st in
     let manage := flag (manage_resource_version (mux st0)) in
     let quit := flag (quit_on_timeout (mux st0)) in
     let r := Stream.stream (enqueue w) w manage quit (responses p) st0 in
     isrunning st0 = true ->
     outcome r = Returned ->
     flag (quit_on_timeout (mux (final r))) = true \/
       W.isrunning (watcher (final r) w) = false ->
     exists st1,
       _run_watcher cb w (p :: rest) st =
       (del_watcher w st1, [CalledStream w manage quit; CalledDelWatcher w],
        Finished) /\
       mux st1 = mux (final r)) /\
  (forall p rest st,
     isrunning (apply_ops (before p) st) = false ->
     _run_watcher cb w (p :: rest) st =
     (del_watcher w (apply_ops (before p) st), [CalledDelWatcher w], Finished)).
Proof.
  split; [apply removal_needs_delete|]. split; [apply run_from_finished|].
  split.
  - intros p rest st st0 manage quit r Hrun Hout Hend.
    unfold _run_watcher. cbn [run_from negb]. fold st0. rewrite Hrun.
    cbn [negb]. unfold attempt. fold manage quit r. rewrite Hout.
    destruct (flag (quit_on_timeout (mux (final r)))) eqn:Hq.
    + exists (on_watcher W.stop w (final r)). rewrite watcher_same.
      cbn [W.isrunning W.stop W.set_run W._run].
      destruct rest; cbn [run_from negb app]; split; reflexivity.
    + destruct Hend as [Hend|Hend]; [discriminate|].
      exists (final r). rewrite Hend.
      destruct rest; cbn [run_from negb app]; split; reflexivity.
  - intros p rest st Hrun. unfold _run_watcher. cbn [run_from negb].
    rewrite Hrun. reflexivity.
Qed.

Lemma membership_removed_by_delete_or_worker_exit_witness :
  (exists w', MuxDel 0 = MuxDel w' /\ key_of streaming w' = W.cls_id Role) /\
  watchers (mux stopped_early) !! key_of stopped_early 0 = None.
Proof.
  destruct (membership_removed_by_delete_or_worker_exit None 0)
    as (Ha & Hb & _).
  split.
  - apply Ha; [eexists|]; reflexivity.
  - apply (Hb true [stopping_pass] one_member stopped_early stopped_run.1.2).
    vm_compute. reflexivity.
Defined.

End WorkerFacts.

(** ** The shared queue *)

Module QueueFacts.
Import Py Mux Stream Worker MuxFacts Examples.

Lemma puts_app (l1 l2 : list Op) : puts (l1 ++ l2) = puts l1 ++ puts l2.
Proof. unfold puts. apply omap_app. Qed.

Lemma apply_ops_queue (ops : list Op) (st : State) :
  results_queue (mux (apply_ops ops st)) = results_queue (mux st) ++ puts ops.
Proof.
  unfold apply_ops. revert st. induction ops as [|op ops IH]; intros st;
    cbn [foldl].
  - rewrite app_nil_r. reflexivity.
  - rewrite IH, apply_op_queue.
    change (op :: ops) with ([op] ++ ops). rewrite puts_app, app_assoc.
    reflexivity.
Qed.

Lemma start_each (l : list nat) (st : State) :
  let st' := foldl (fun s w => _start_watcher w s) st l in
  results_queue (mux st') = results_queue (mux st) /\
  watchers (mux st') = watchers (mux st) /\
  isrunning st' = isrunning st /\
  started (mux st') = started (mux st) ++ l.
Proof.
  revert st. induction l as [|a l IH]; intros st; cbn [foldl].
  - rewrite app_nil_r. auto.
  - destruct (IH (_start_watcher a st)) as (-> & -> & -> & ->).
    cbn. rewrite <- app_assoc. auto.
Qed.

Lemma stream_begin_keeps (manage quit : bool) (st : State) :
  results_queue (mux (stream_begin manage quit st)) = results_queue (mux st) /\
  watchers (mux (stream_begin manage quit st)) = watchers (mux st) /\
  isrunning (stream_begin manage quit st) = true.
Proof.
  unfold stream_begin.
  match goal with
  | |- context [foldl _ ?s ?l] => destruct (start_each l s) as (-> & -> & -> & _)
  end.
  auto.
Qed.

Lemma consume_fifo (script : list (list Op)) (st st' : State)
    (out : list WatchEvent) (e : MuxEnd) :
  consume script st = (st', out, e) ->
  exists used,
    used `prefix_of` script /\
    out ++ results_queue (mux st')
    = results_queue (mux st) ++ puts (concat used).
Proof.
  revert st st' out e. induction script as [|ops rest IH];
    intros st st' out e; cbn [consume]; unfold poll;
    destruct (isrunning st && negb (bool_decide (watchers (mux st) = ∅)))%bool;
    try (intros [= <- <- _]; exists []; split; [apply prefix_nil|];
         cbn; rewrite app_nil_r; reflexivity);
    destruct (results_queue (mux st)) as [|we q] eqn:Hq;
    try (intros [= <- <- _]; exists []; split; [apply prefix_nil|];
         cbn; rewrite ?Hq, ?app_nil_r; reflexivity).
  - intros H. destruct (IH _ _ _ _ H) as (used & Hpre & Heq).
    exists (ops :: used). split; [apply prefix_cons, Hpre|].
    rewrite Heq, apply_ops_queue, Hq. cbn [concat].
    rewrite puts_app. reflexivity.
  - destruct (consume rest _) as [[st2 out2] e2] eqn:E.
    intros [= <- <- <-]. destruct (IH _ _ _ _ E) as (used & Hpre & Heq).
    exists (ops :: used). split; [apply prefix_cons, Hpre|].
    cbn [app]. rewrite Heq, apply_ops_queue. cbn [concat mux on_mux set_queue
      results_queue]. rewrite puts_app, !app_assoc. reflexivity.
Qed.

(** C10 as stated fails: the event queued just before the consumer stopped
    the coordinator stays in the queue, but the member's worker has removed
    the member, so the next [stream()] on the same coordinator ends at once
    and yields nothing. *)
Lemma retained_event_not_yielded :
  results_queue (mux stopped_early) = [role_added "7"] /\
  watchers (mux stopped_early) = ∅ /\
  let r := Worker.stream false false [[]; []] stopped_early in
  r.1.2 = [] /\ r.2 = MuxReturned /\
  results_queue (mux r.1.1) = [role_added "7"].
Proof. vm_compute. repeat split. Qed.

(** C10, amended.  The queue is empty at construction and no action on the
    shared state takes anything out of it: each action leaves the queued
    events in place and a [put] appends one; starting [stream()] again keeps
    the queue.  In any run of the coordinator's loop, the events yielded,
    followed by the events left in the queue, are the events that were in the
    queue at the start followed by the ones put meanwhile, so retained events
    come out before newer ones.  A later [stream()] yields the oldest
    retained event first provided the coordinator then has a member; without
    members it ends without yielding and the events stay in the queue. *)
Theorem queue_is_retained_fifo (st : State) :
  results_queue Mux.__init__ = [] /\
  (forall op, results_queue (mux (apply_op op st))
              = results_queue (mux st) ++ puts [op]) /\
  (forall manage quit,
     results_queue (mux (stream_begin manage quit st))
     = results_queue (mux st)) /\
  (forall script st' out e,
     consume script st = (st', out, e) ->
     exists used,
       used `prefix_of` script /\
       out ++ results_queue (mux st')
       = results_queue (mux st) ++ puts (concat used)) /\
  (forall manage quit we q,
     results_queue (mux st) = we :: q ->
     watchers (mux st) <> ∅ ->
     poll (stream_begin manage quit st)
     = (Got we, on_mux (set_queue q) (stream_begin manage quit st))) /\
  (forall manage quit script,
     watchers (mux st) = ∅ ->
     Worker.stream manage quit script st
     = (stream_begin manage quit st, [], MuxReturned)).
Proof.
  split; [reflexivity|]. split; [intros op; apply apply_op_queue|].
  split; [intros manage quit; apply stream_begin_keeps|].
  split; [intros script st' out e; apply consume_fifo|]. split.
  - intros manage quit we q Hq Hw.
    destruct (stream_begin_keeps manage quit st) as (Hq' & Hw' & Hr').
    unfold poll. rewrite Hr', Hw', Hq', Hq.
    rewrite bool_decide_eq_false_2 by exact Hw. reflexivity.
  - intros manage quit script Hw.
    destruct (stream_begin_keeps manage quit st) as (Hq' & Hw' & Hr').
    unfold Worker.stream.
    assert (poll (stream_begin manage quit st)
            = (Stopped, stream_begin manage quit st)) as Hp.
    { unfold poll. rewrite Hr', Hw', Hw.
      rewrite bool_decide_eq_true_2 by reflexivity. reflexivity. }
    destruct script; cbn [consume]; rewrite Hp; reflexivity.
Qed.

Lemma queue_is_retained_fifo_witness :
  (Worker.stream false false [[]; []]
     (Mux.add_watcher 0 stopped_early)).1.2 = [role_added "7"].
Proof.
  destruct (queue_is_retained_fifo (Mux.add_watcher 0 stopped_early))
    as (_ & _ & _ & _ & H & _).
  unfold Worker.stream. cbn [consume].
  rewrite (H false false (role_added "7") []); [|reflexivity|].
  - vm_compute. reflexivity.
  - intros Hempty.
    assert (watchers (mux (add_watcher 0 stopped_early))
            !! W.cls_id Role = None) as Hn by (rewrite Hempty; reflexivity).
    vm_compute in Hn. discriminate Hn.
Defined.

End QueueFacts.

(** * Further properties of the watch module *)

(** ** The cursor pattern, the API class cache, construction *)

Module MoreWatcher.
Import Py Re W PyFactsMore ReFacts Examples.

Lemma search_skips (pre rest : string) :
  lacks "(" pre = true -> rvre_search (pre +:+ rest) = rvre_search rest.
Proof.
  unfold lacks, all_chars. induction pre as [|c pre IH]; [reflexivity|].
  simpl. intros H. apply andb_prop in H as [Hc Hpre].
  change (String c pre +:+ rest) with (String c (pre +:+ rest)).
  apply negb_true_iff in Hc. cbn [rvre_search]. rewrite Hc.
  apply IH, Hpre.
Qed.

(** X1.  [_rvre.search] finds a match exactly in the strings that contain
    a parenthesized run of digits, its group is such a run, and when no
    opening parenthesis precedes a parenthesized run of digits the group is
    that run. *)
Theorem rvre_search_finds_first_number (s : string) :
  (rvre_search s = None <-> ~ has_paren_number s) /\
  (forall g, rvre_search s = Some g -> paren_number g s) /\
  (forall pre g post,
     s = pre +:+ String "(" (g +:+ String ")" post) ->
     lacks "(" pre = true ->
     g <> EmptyString -> all_chars is_digit g = true ->
     rvre_search s = Some g).
Proof.
  split; [apply rvre_search_None|]. split; [apply rvre_search_sound|].
  intros pre g post -> Hpre Hne Hd. rewrite (search_skips _ _ Hpre).
  cbn [rvre_search]. rewrite (match_here_complete g post Hne Hd).
  reflexivity.
Qed.

Lemma rvre_search_finds_first_number_witness :
  rvre_search "Expired: too old resource version: 1 (90)" = Some "90".
Proof.
  destruct (rvre_search_finds_first_number
              "Expired: too old resource version: 1 (90)") as (_ & _ & H).
  apply (H "Expired: too old resource version: 1 " "90" "");
    [reflexivity|reflexivity|discriminate|reflexivity].
Defined.

(** X2.  [_get_api_class]: the class returned is then in the cache under
    the descriptor's key, a repeated lookup returns the same class and
    leaves the cache as it is, and entries under other keys are never
    changed. *)
Theorem get_api_class_caches (cache : gmap ApiKey ApiClass)
    (d : WatcherDescriptor) :
  let key := (pkgname d, modname d, clsname d) in
  let '(c, cache') := _get_api_class cache d in
  cache' !! key = Some c /\
  _get_api_class cache' d = (c, cache') /\
  (forall k, k <> key -> cache' !! k = cache !! k) /\
  (cache !! key = None -> api_key c = key).
Proof.
  intros key. unfold _get_api_class. fold key.
  destruct (cache !! key) as [c|] eqn:E.
  - rewrite E. split; [reflexivity|]. split; [reflexivity|].
    split; [reflexivity|discriminate].
  - rewrite lookup_insert_eq. split; [reflexivity|]. split; [reflexivity|].
    split; [|reflexivity].
    intros k Hk. apply lookup_insert_ne. congruence.
Qed.

Lemma get_api_class_caches_witness :
  (_get_api_class ∅ (rbac_descriptor "list_cluster_role")).2
  !! (pkgname (rbac_descriptor "list_cluster_role"),
      modname (rbac_descriptor "list_cluster_role"),
      clsname (rbac_descriptor "list_cluster_role"))
  = Some (_get_api_class ∅ (rbac_descriptor "list_cluster_role")).1.
Proof.
  pose proof (get_api_class_caches ∅ (rbac_descriptor "list_cluster_role"))
    as H.
  destruct (_get_api_class ∅ (rbac_descriptor "list_cluster_role"))
    as [c cache'].
  apply H.
Defined.

Lemma get_api_class_cached (cache : gmap ApiKey ApiClass)
    (d : WatcherDescriptor) :
  (_get_api_class cache d).2 !! (pkgname d, modname d, clsname d)
  = Some (_get_api_class cache d).1.
Proof.
  unfold _get_api_class.
  destruct (cache !! (pkgname d, modname d, clsname d)) eqn:E; cbn;
    [exact E|apply lookup_insert_eq].
Qed.

(** X3.  [Watcher.stop] can be called in any state, before the first
    [stream()] included; it leaves the Watcher not running, flags the
    transport object if there is one, keeps the configuration, the cursor
    and the highest version seen, and calling it again changes nothing. *)
Theorem watcher_stop_idempotent (x : Watcher) :
  isrunning (stop x) = false /\
  stop (stop x) = stop x /\
  kwargs (stop x) = kwargs x /\
  highest_resource_version (stop x) = highest_resource_version x /\
  cls (stop x) = cls x /\
  k8s_watcher (stop x) =
    match k8s_watcher x with
    | Some _ => Some {| _stop := true |}
    | None => None
    end /\
  isrunning (start (stop x)) = true /\
  k8s_watcher (start (stop x)) = k8s_watcher (stop x).
Proof.
  unfold stop, start. cbn. destruct (k8s_watcher x); repeat split.
Qed.

(** X4.  A Watcher built with an integer [resource_version] is not
    running, has seen no version, and holds a cursor that the streaming loop
    reads back as that integer; built without one it has no cursor.  The
    namespace is passed on in [kwargs] whenever it is not [None], also when
    it is empty and the cluster-wide operation was chosen. *)
Theorem init_state (cache : gmap ApiKey ApiClass) (c : PyClass)
    (ns : option string) (bookmarks : option bool) (fsel lsel : option string)
    (rv : PyVal) (timeout : option Z) (cl : option nat) (w : Watcher)
    (cache' : gmap ApiKey ApiClass) :
  __init__ cache c ns bookmarks fsel lsel rv timeout cl = Ok (w, cache') ->
  isrunning w = false /\
  k8s_watcher w = None /\
  highest_resource_version w = -1 /\
  namespace (kwargs w) = ns /\
  (rv = PyNone -> current_resource_version w = None) /\
  (forall z, rv = PyInt z ->
     exists s, current_resource_version w = Some s /\ int s = Some z) /\
  (Some (wd w) = if truthy ns then _namespaced_watcher (watcher_cls c)
                 else _watcher (watcher_cls c)) /\
  cache' !! (pkgname (wd w), modname (wd w), clsname (wd w))
  = Some (meth_class (meth w)).
Proof.
  unfold __init__. destruct (negb (is_HikaruDocumentBase c)); [discriminate|].
  destruct (truthy ns);
    [destruct (_namespaced_watcher (watcher_cls c)) as [d|]
    |destruct (_watcher (watcher_cls c)) as [d|]]; try discriminate;
    pose proof (get_api_class_cached cache d) as Hc;
    destruct (_get_api_class cache d) as [a cache1];
    intros [= <- <-]; cbn;
    (repeat split; try exact Hc;
     [intros ->; reflexivity
     |intros z ->; exists (str_int z); split; [reflexivity|apply int_str_int]]).
Qed.

Lemma init_state_witness :
  exists s, current_resource_version (new_watcher Role (PyInt 5)) = Some s /\
            int s = Some 5.
Proof.
  unfold new_watcher.
  destruct (__init__ ∅ Role None None None None (PyInt 5) (Some 1) None)
    as [[w c]|e] eqn:E.
  - destruct (init_state _ _ _ _ _ _ _ _ _ _ _ E)
      as (_ & _ & _ & _ & _ & H & _).
    apply (H 5 eq_refl).
  - exfalso. unfold __init__ in E. cbn -[_get_api_class] in E.
    destruct (_get_api_class _ _) in E. discriminate E.
Defined.

End MoreWatcher.

(** ** More on [Watcher.stream] *)

Module MoreStream.
Import Py Re Mux Stream MuxFacts StreamFacts PyFactsMore Examples.

Lemma stream_dominates_witness :
  requests_dominate (highest fresh 0) (trace first_run).
Proof.
  unfold first_run. apply stream_dominates. intros we s. reflexivity.
Defined.

Lemma seen_after_app (t1 t2 : list Obs) (s : Z) :
  seen_after s (t1 ++ t2) = seen_after (seen_after s t1) t2.
Proof.
  revert s. induction t1 as [|[ph kw h|we] t1 IH]; intros s;
    cbn [seen_after app]; auto.
Qed.

Lemma seen_after_ge (t : list Obs) (s : Z) :
  s <= seen_after s t /\
  forall we v, Yield we ∈ t -> event_version (obj we) = Ok v ->
               v <= seen_after s t.
Proof.
  revert s. induction t as [|[ph kw h|we] t IH]; intros s; cbn [seen_after].
  - split; [lia|]. intros we v H. inversion H.
  - destruct (IH (Z.max s h)) as [H1 H2]. split; [lia|].
    intros we v Hin Hv. apply elem_of_cons in Hin as [Hin|Hin];
      [discriminate|]. eauto.
  - destruct (event_version (obj we)) as [v0|] eqn:E.
    + destruct (IH (Z.max s v0)) as [H1 H2]. split; [lia|].
      intros we' v Hin Hv. apply elem_of_cons in Hin as [Hin|Hin]; [|eauto].
      injection Hin as ->. rewrite E in Hv. injection Hv as <-. lia.
    + destruct (IH s) as [H1 H2]. split; [exact H1|].
      intros we' v Hin Hv. apply elem_of_cons in Hin as [Hin|Hin]; [|eauto].
      injection Hin as ->. congruence.
Qed.

Lemma loop_seen sink w manage quit script st :
  (forall we s, highest (sink we s) w = highest s w) ->
  forall s, s <= highest st w ->
    seen_after s (trace (loop sink w manage quit script st))
    <= highest (final (loop sink w manage quit script st)) w.
Proof.
  intros Hsink. revert st. induction script as [|r rest IH]; intros st s Hs;
    cbn [loop]; destruct (negb (W.isrunning (watcher st w)));
    try exact Hs;
    destruct (advance w manage st) as [st1|exn] eqn:Ha; try exact Hs.
  - cbn. rewrite (advance_highest _ _ _ _ Ha). exact Hs.
  - pose proof (advance_highest _ _ _ _ Ha) as Hh.
    destruct (round sink w manage quit r st1) as [obs nx] eqn:Er.
    assert (Z.max s (highest st1 w) <= highest st1 w) as Hmax by lia.
    destruct (round_highest _ _ _ _ _ _ _ _ Hsink Er _ Hmax) as [_ Hnx].
    destruct nx as [st2|st2 out]; cbn [trace emit final app seen_after];
      fold (highest st1 w).
    + rewrite seen_after_app. apply IH. exact Hnx.
    + exact Hnx.
Qed.

(** X6.  Over any run of [stream] whose consumer leaves the Watcher's
    highest version alone, the highest version never decreases, and at the
    end it is at least the version of every event the run yielded. *)
Theorem stream_highest_monotone sink w manage quit script st :
  (forall we s, highest (sink we s) w = highest s w) ->
  let r := stream sink w manage quit script st in
  highest st w <= highest (final r) w /\
  forall we v, we ∈ yielded (trace r) -> event_version (obj we) = Ok v ->
               v <= highest (final r) w.
Proof.
  intros Hsink r.
  assert (seen_after (highest st w) (trace r) <= highest (final r) w) as H.
  { subst r. unfold stream.
    set (st0 := on_watcher _ w (on_watcher W.start w st)).
    assert (highest st0 w = highest st w) as H0.
    { subst st0. rewrite !highest_on_watcher; reflexivity. }
    rewrite <- H0.
    destruct (manage && _)%bool; [|apply loop_seen; [exact Hsink|lia]].
    destruct script as [|r rest]; [cbn; lia|].
    pose proof (prime_highest w r st0) as Hp.
    destruct (prime w r st0) as [st1|st1 out];
      cbn [trace emit final app seen_after]; fold (highest st0 w).
    - apply loop_seen; [exact Hsink|lia].
    - lia. }
  destruct (seen_after_ge (trace r) (highest st w)) as [H1 H2].
  split; [lia|]. intros we v Hin Hv.
  assert (Yield we ∈ trace r) as Hy.
  { clear -Hin. induction (trace r) as [|[ph kw h|we'] t IH];
      cbn [yielded] in Hin.
    - inversion Hin.
    - right. auto.
    - apply elem_of_cons in Hin as [->|Hin]; [left|right; auto]. }
  specialize (H2 we v Hy Hv). lia.
Qed.

Lemma stream_highest_monotone_witness :
  highest fresh 0 <= highest (final first_run) 0 /\
  100 <= highest (final first_run) 0.
Proof.
  unfold first_run.
  match goal with
  | |- context [stream ?k ?w ?m ?q ?sc ?st] =>
      destruct (stream_highest_monotone k w m q sc st) as [H1 H2];
        [intros we s; reflexivity|]
  end.
  split; [exact H1|].
  apply (H2 (role_added "100") 100); [vm_compute; left|reflexivity].
Defined.

Lemma loop_step sink w manage quit r rest st st1 :
  W.isrunning (watcher st w) = true ->
  advance w manage st = Ok st1 ->
  loop sink w manage quit (r :: rest) st =
  let o := Open Main (W.kwargs (watcher st1 w))
             (W.highest_resource_version (watcher st1 w)) in
  let '(obs, nx) := round sink w manage quit r st1 in
  match nx with
  | Continue st2 => emit (o :: obs) (loop sink w manage quit rest st2)
  | Stop st2 out => {| final := st2; trace := o :: obs; outcome := out |}
  end.
Proof. intros Hrun Ha. cbn [loop]. rewrite Hrun, Ha. reflexivity. Qed.

(** X7.  A transport exception that ends a request of the main loop is
    raised to the consumer, with the events of that request already
    yielded, whenever cursor management is off or the exception is not an
    [ApiException] of status 410; the rest of the script is not used. *)
Theorem transport_error_is_raised sink w manage quit r rest st st1 st2 obs e :
  W.isrunning (watcher st w) = true ->
  advance w manage st = Ok st1 ->
  pump sink w (items r) st1 = (st2, obs, ForDone) ->
  ending r = Fail e ->
  manage = false \/ (forall reason, e <> ApiException 410 reason) ->
  loop sink w manage quit (r :: rest) st =
  {| final := st2;
     trace := Open Main (W.kwargs (watcher st1 w))
                (W.highest_resource_version (watcher st1 w)) :: obs;
     outcome := Raised e |}.
Proof.
  intros Hrun Ha Hp He Hcase. rewrite (loop_step _ _ _ _ _ _ _ _ Hrun Ha).
  unfold round. rewrite Hp, He. cbn zeta.
  assert (on_exception w manage e st2 = Stop st2 (Raised e)) as ->;
    [|reflexivity].
  unfold on_exception. destruct e as [status reason| | | | |]; try reflexivity.
  destruct Hcase as [->|Hne].
  - rewrite andb_false_r. reflexivity.
  - destruct (Z.eqb_spec status 410) as [->|_]; [|reflexivity].
    destruct (Hne reason eq_refl).
Qed.

Lemma transport_error_is_raised_witness :
  outcome (loop standalone 0 true false [fails_with boom; idle]
             started_with_cursor) = Raised boom.
Proof.
  rewrite (transport_error_is_raised standalone 0 true false
             (fails_with boom) [idle] started_with_cursor started_with_cursor
             started_with_cursor [] boom);
    [reflexivity|vm_compute; reflexivity|vm_compute; reflexivity
    |reflexivity|reflexivity|].
  right. intros reason. discriminate.
Defined.

(** X8.  When a request of the main loop ends on the transport's idle
    timeout and the Watcher is still running, the run ends without error if
    [quit_on_timeout] is set, and otherwise goes on with a new request from
    the state the timeout left. *)
Theorem idle_timeout_quits_or_reopens sink w manage quit r rest st st1 st2 obs :
  W.isrunning (watcher st w) = true ->
  advance w manage st = Ok st1 ->
  pump sink w (items r) st1 = (st2, obs, ForDone) ->
  ending r = Timeout ->
  W.isrunning (watcher st2 w) = true ->
  let o := Open Main (W.kwargs (watcher st1 w))
             (W.highest_resource_version (watcher st1 w)) in
  loop sink w manage quit (r :: rest) st =
  if quit then {| final := st2; trace := o :: obs; outcome := Returned |}
  else emit (o :: obs) (loop sink w manage quit rest st2).
Proof.
  intros Hrun Ha Hp He Hrun2 o. rewrite (loop_step _ _ _ _ _ _ _ _ Hrun Ha).
  unfold round. rewrite Hp, He. cbn zeta. unfold on_timeout. rewrite Hrun2.
  destruct quit; reflexivity.
Qed.

Lemma idle_timeout_quits_or_reopens_witness :
  outcome (loop standalone 0 false true [idle; idle] started_with_cursor)
  = Returned /\
  outcome (loop standalone 0 false false [idle; idle] started_with_cursor)
  = Pending.
Proof.
  split.
  - rewrite (idle_timeout_quits_or_reopens standalone 0 false true idle
               [idle] started_with_cursor started_with_cursor
               started_with_cursor []);
      try reflexivity; vm_compute; reflexivity.
  - rewrite (idle_timeout_quits_or_reopens standalone 0 false false idle
               [idle] started_with_cursor started_with_cursor
               started_with_cursor []);
      try reflexivity; vm_compute; reflexivity.
Defined.

(** X9.  The Watcher is observed stopped only at a wake point: when an
    event arrives while the Watcher is running, it is yielded; if the
    Watcher is then found stopped, nothing more is taken from the transport,
    no new request is made and the run returns without error, whatever
    [quit_on_timeout] is. *)
Theorem stop_at_yield_ends_run sink w manage quit e ops more fin rest
    st st1 v :
  W.isrunning (watcher st w) = true ->
  advance w manage st = Ok st1 ->
  event_version (raw_object e) = Ok v ->
  let st1' := if v >? W.highest_resource_version (watcher st1 w)
              then on_watcher (W.set_highest v) w st1 else st1 in
  let event := {| etype := raw_type e; obj := raw_object e |} in
  let st2 := apply_ops ops (sink event st1') in
  W.isrunning (watcher st2 w) = false ->
  loop sink w manage quit
    ({| items := Ev e ops :: more; ending := fin |} :: rest) st =
  {| final := st2;
     trace := [Open Main (W.kwargs (watcher st1 w))
                 (W.highest_resource_version (watcher st1 w));
               Yield event];
     outcome := Returned |}.
Proof.
  intros Hrun Ha Hv st1' event st2 Hstop.
  assert (W.isrunning (watcher st1 w) = true) as Hrun1.
  { revert Ha. unfold advance. destruct manage; [|intros [= <-]; exact Hrun].
    destruct (W.current_resource_version (watcher st w));
      [|intros [= <-]; exact Hrun].
    destruct (int s); [|discriminate].
    destruct (_ >? z); [|intros [= <-]; exact Hrun].
    rewrite update_int. intros [= <-]. rewrite watcher_same. exact Hrun. }
  assert (W.isrunning (watcher st1' w) = true) as Hrun1'.
  { subst st1'. destruct (v >? _); [|exact Hrun1].
    rewrite watcher_same. exact Hrun1. }
  rewrite (loop_step _ _ _ _ _ _ _ _ Hrun Ha). unfold round.
  cbn [items pump]. rewrite Hrun1, Hv. cbn [negb]. fold st1'.
  rewrite Hrun1'. cbn [negb]. fold event st2. rewrite Hstop. cbn [negb].
  unfold on_timeout. rewrite Hstop. cbn [andb emit trace final outcome app].
  destruct rest; cbn [loop]; rewrite Hstop; reflexivity.
Qed.

Lemma stop_at_yield_ends_run_witness :
  outcome (loop standalone 0 false false
             [ {| items := [Ev (role_event "100") [WatcherStop 0];
                            Ev (role_event "101") []];
                  ending := Fail boom |}; idle ]
             started_with_cursor) = Returned.
Proof.
  rewrite (stop_at_yield_ends_run standalone 0 false false
             (role_event "100") [WatcherStop 0] [Ev (role_event "101") []]
             (Fail boom) [idle] started_with_cursor started_with_cursor 100);
    [reflexivity|vm_compute; reflexivity..].
Defined.

(** X10.  The priming request of a managed run without cursor: an event
    delivered in answer to it ends the run with [RuntimeError]; a timeout
    without event leaves the Watcher without cursor and the main loop goes
    on from there. *)
Theorem priming_outcomes sink w quit r rest st :
  W.current_resource_version (watcher st w) = None ->
  let st0 := on_watcher (W.set_k8s_watcher (Some W._k8s_watch_factory)) w
               (on_watcher W.start w st) in
  let o := Open Priming
             (W.kw_set_resource_version "1" (W.kwargs (watcher st0 w)))
             (W.highest_resource_version (watcher st0 w)) in
  (forall st1,
     prime_pump (items r) st0 = (st1, true) ->
     stream sink w true quit (r :: rest) st =
     {| final := st1; trace := [o];
        outcome := Raised (RuntimeError "Unable to determine the oldest available resource version") |}) /\
  (forall st1,
     prime_pump (items r) st0 = (st1, false) -> ending r = Timeout ->
     stream sink w true quit (r :: rest) st =
     emit [o] (loop sink w true quit rest st1)).
Proof.
  intros Hc st0 o.
  assert (stream sink w true quit (r :: rest) st =
          match prime w r st0 with
          | Continue st1 => emit [o] (loop sink w true quit rest st1)
          | Stop st1 out => {| final := st1; trace := [o]; outcome := out |}
          end) as Hs.
  { unfold stream. fold st0.
    assert (W.current_resource_version (watcher st0 w) = None) as Hc0.
    { subst st0. rewrite !watcher_same. exact Hc. }
    rewrite Hc0, bool_decide_eq_true_2 by reflexivity. reflexivity. }
  rewrite Hs. unfold prime. split.
  - intros st1 ->. reflexivity.
  - intros st1 -> ->. reflexivity.
Qed.

Lemma priming_outcomes_witness :
  outcome (stream standalone 0 true false
             [ {| items := [Ev (role_event "100") []]; ending := Timeout |} ]
             fresh)
  = Raised (RuntimeError "Unable to determine the oldest available resource version").
Proof.
  destruct (priming_outcomes standalone 0 false
              {| items := [Ev (role_event "100") []]; ending := Timeout |}
              [] fresh) as [H _]; [vm_compute; reflexivity|].
  rewrite (H _ eq_refl). reflexivity.
Defined.

Lemma loop_never_primes sink w manage quit script st :
  forall kw h, Open Priming kw h ∉ trace (loop sink w manage quit script st).
Proof.
  revert st. induction script as [|r rest IH]; intros st kw h; cbn [loop];
    destruct (negb (W.isrunning (watcher st w))); try apply not_elem_of_nil;
    destruct (advance w manage st) as [st1|exn]; try apply not_elem_of_nil.
  destruct (round sink w manage quit r st1) as [obs nx] eqn:Er.
  pose proof (round_yields _ _ _ _ _ _ _ _ Er Priming kw h) as Hobs.
  destruct nx as [st2|st2 out]; cbn [trace emit app]; intros Hin;
    apply elem_of_cons in Hin as [Hin|Hin]; try discriminate.
  - apply elem_of_app in Hin as [Hin|Hin]; [exact (Hobs Hin)|].
    exact (IH _ _ _ Hin).
  - exact (Hobs Hin).
Qed.

(** X11.  A run makes no priming request when cursor management is off or
    when the Watcher already has a cursor. *)
Theorem no_priming_with_cursor sink w manage quit script st :
  manage = false \/ W.current_resource_version (watcher st w) <> None ->
  forall kw h, Open Priming kw h ∉ trace (stream sink w manage quit script st).
Proof.
  intros Hcase kw h. unfold stream.
  set (st0 := on_watcher _ w (on_watcher W.start w st)).
  assert ((manage && bool_decide
             (W.current_resource_version (watcher st0 w) = None))%bool = false)
    as ->; [|apply loop_never_primes].
  destruct Hcase as [->|Hc]; [reflexivity|].
  rewrite bool_decide_eq_false_2; [apply andb_false_r|].
  subst st0. rewrite !watcher_same. exact Hc.
Qed.

Lemma no_priming_with_cursor_witness :
  Open Priming (W.kwargs (watcher with_cursor 0)) (-1) ∉ trace recovered.
Proof.
  unfold recovered. apply no_priming_with_cursor. right.
  intros H. vm_compute in H. discriminate H.
Defined.

(** X19.  The cursor adjustment at the head of the main loop settles at
    once: applied again to its own result it changes nothing, so a request
    reopened without new events carries the same cursor; with management off
    it never changes anything. *)
Theorem advance_idempotent w st st1 :
  advance w true st = Ok st1 ->
  advance w true st1 = Ok st1 /\ advance w false st = Ok st.
Proof.
  intros Ha. split; [|reflexivity]. revert Ha. unfold advance.
  destruct (W.current_resource_version (watcher st w)) as [s|] eqn:Hc.
  - destruct (int s) as [n|] eqn:Hn; [|discriminate].
    destruct (W.highest_resource_version (watcher st w) >? n) eqn:Hgt.
    + rewrite update_int. intros [= <-]. rewrite watcher_same.
      cbn [W.current_resource_version W.set_resource_version W.kwargs
           W.kw_set_resource_version W.resource_version
           W.highest_resource_version].
      rewrite int_str_int, Z.gtb_ltb, Z.ltb_irrefl. reflexivity.
    + intros [= <-]. rewrite Hc, Hn, Hgt. reflexivity.
  - intros [= <-]. rewrite Hc. reflexivity.
Qed.

Lemma advance_idempotent_witness :
  exists st1, advance 0 true behind = Ok st1 /\
              W.current_resource_version (watcher st1 0) = Some "100" /\
              advance 0 true st1 = Ok st1.
Proof.
  exists (on_watcher (W.set_resource_version "100") 0 behind).
  assert (advance 0 true behind
          = Ok (on_watcher (W.set_resource_version "100") 0 behind)) as E
    by (vm_compute; reflexivity).
  split; [exact E|]. split; [vm_compute; reflexivity|].
  apply (advance_idempotent 0 behind _ E).
Defined.

End MoreStream.

(** ** More on the coordinator's membership *)

Module MoreMux.
Import Py Mux Stream Worker MuxFacts StreamFacts Examples.

Lemma state_eq (s1 s2 : State) :
  heap s1 = heap s2 -> mux s1 = mux s2 -> s1 = s2.
Proof. destruct s1, s2. cbn. intros -> ->. reflexivity. Qed.

Lemma key_of_heap (st1 st2 : State) (w : nat) :
  heap st1 = heap st2 -> key_of st1 w = key_of st2 w.
Proof. unfold key_of. intros H. rewrite (watcher_heap _ _ w H). reflexivity. Qed.

Lemma key_of_del (w w' : nat) (st : State) :
  key_of (del_watcher w st) w' = key_of st w'.
Proof.
  rewrite (key_of_heap _ _ w' (del_watcher_heap w st)). apply key_of_stop.
Qed.

Lemma key_of_add (w w' : nat) (st : State) :
  key_of (add_watcher w st) w' = key_of st w'.
Proof.
  pose proof (add_watcher_heap w st) as Hh.
  destruct (watchers (mux st) !! key_of st w);
    rewrite (key_of_heap _ _ w' Hh); [apply key_of_stop|reflexivity].
Qed.

(** X12.  [del_watcher] is idempotent, and for a Watcher whose kind is not
    registered it only stops the Watcher: the missing key is ignored and the
    coordinator is unchanged. *)
Theorem del_watcher_idempotent (w : nat) (st : State) :
  del_watcher w (del_watcher w st) = del_watcher w st /\
  (watchers (mux st) !! key_of st w = None ->
   del_watcher w st = on_watcher W.stop w st).
Proof.
  split.
  - apply state_eq.
    + rewrite !del_watcher_heap. unfold on_watcher at 1. cbn [heap].
      rewrite (watcher_heap _ _ w (del_watcher_heap w st)), watcher_same.
      rewrite stop_idemp. unfold on_watcher. cbn [heap].
      apply insert_insert_eq.
    + rewrite !del_watcher_mux, key_of_del. cbn [watchers set_watchers].
      rewrite delete_delete_eq. reflexivity.
  - intros Hnone. apply state_eq; [apply del_watcher_heap|].
    rewrite del_watcher_mux, (delete_id _ _ Hnone).
    unfold on_watcher. cbn [mux]. destruct (mux st). reflexivity.
Qed.

Lemma del_watcher_idempotent_witness :
  del_watcher 2 fresh = on_watcher W.stop 2 fresh.
Proof.
  apply (del_watcher_idempotent 2 fresh). vm_compute. reflexivity.
Defined.

(** X13.  [del_watcher] removes the entry of the Watcher's kind whichever
    Watcher is registered under it: called for a Watcher that has been
    replaced, it unregisters the replacement, which is not stopped. *)
Theorem del_watcher_removes_by_kind (w w' : nat) (st : State) :
  w <> w' ->
  key_of st w = key_of st w' ->
  watchers (mux st) !! key_of st w' = Some w' ->
  watchers (mux (del_watcher w st)) !! key_of st w' = None /\
  watcher (del_watcher w st) w' = watcher st w'.
Proof.
  intros Hne Hk Hreg. split.
  - rewrite del_watcher_mux, Hk. cbn [watchers set_watchers].
    apply lookup_delete_eq.
  - rewrite (watcher_heap _ _ w' (del_watcher_heap w st)), watcher_on_watcher.
    destruct (decide (w = w')); [congruence|reflexivity].
Qed.

Lemma del_watcher_removes_by_kind_witness :
  watchers (mux replaced) !! W.cls_id Role = Some 1%nat /\
  watchers (mux (del_watcher 0 replaced)) !! W.cls_id Role = None /\
  W.isrunning (watcher (del_watcher 0 replaced) 1) = true.
Proof.
  assert (watchers (mux replaced) !! key_of replaced 1 = Some 1%nat) as Hreg
    by (vm_compute; reflexivity).
  destruct (del_watcher_removes_by_kind 0 1 replaced) as [H1 H2];
    [discriminate|vm_compute; reflexivity|exact Hreg|].
  split; [exact Hreg|]. split; [exact H1|].
  rewrite H2. vm_compute. reflexivity.
Defined.

(** X14.  Adding a Watcher and deleting it again leaves its kind
    unregistered, whatever was registered for the kind before, and leaves
    every other kind as it was; the Watcher ends up stopped. *)
Theorem add_then_del (w : nat) (st : State) :
  let st' := del_watcher w (add_watcher w st) in
  watchers (mux st') = delete (key_of st w) (watchers (mux st)) /\
  W.isrunning (watcher st' w) = false /\
  results_queue (mux st') = results_queue (mux st).
Proof.
  intros st'. subst st'. split; [|split].
  - rewrite del_watcher_mux, key_of_add, add_watcher_mux.
    cbn [watchers set_watchers]. apply delete_insert_eq.
  - rewrite (watcher_heap _ _ w (del_watcher_heap w _)), watcher_same.
    reflexivity.
  - rewrite del_watcher_mux, add_watcher_mux. reflexivity.
Qed.

(** X15.  Adding a Watcher that is already the registered one of its kind
    stops that very Watcher and keeps the membership as it is; when the
    coordinator is running one more worker is started for it. *)
Theorem add_registered_again (w : nat) (st : State) :
  watchers (mux st) !! key_of st w = Some w ->
  watcher (add_watcher w st) w = W.stop (watcher st w) /\
  watchers (mux (add_watcher w st)) = watchers (mux st) /\
  started (mux (add_watcher w st)) =
    (if isrunning st then started (mux st) ++ [w] else started (mux st)).
Proof.
  intros Hreg. pose proof (add_watcher_heap w st) as Hh. rewrite Hreg in Hh.
  split; [|split].
  - rewrite (watcher_heap _ _ w Hh). apply watcher_same.
  - rewrite add_watcher_mux. cbn [watchers]. apply insert_id, Hreg.
  - rewrite add_watcher_mux. reflexivity.
Qed.

Lemma add_registered_again_witness :
  W.isrunning (watcher (on_watcher W.start 0 streaming) 0) = true /\
  W.isrunning (watcher (add_watcher 0 (on_watcher W.start 0 streaming)) 0)
  = false /\
  length (started (mux (add_watcher 0 (on_watcher W.start 0 streaming))))
  = 3%nat.
Proof.
  destruct (add_registered_again 0 (on_watcher W.start 0 streaming))
    as (H1 & _ & H3); [vm_compute; reflexivity|].
  split; [vm_compute; reflexivity|]. split.
  - rewrite H1. reflexivity.
  - rewrite H3. vm_compute. reflexivity.
Defined.

Lemma start_all (l : list nat) (st : State) :
  let st' := foldl (fun s w => _start_watcher w s) st l in
  heap st' = heap st /\
  mux st' = set_started (started (mux st) ++ l) (mux st).
Proof.
  revert st. induction l as [|a l IH]; intros st; cbn [foldl].
  - rewrite app_nil_r. split; [reflexivity|]. destruct (mux st). reflexivity.
  - destruct (IH (_start_watcher a st)) as [-> ->]. split; [reflexivity|].
    cbn. rewrite <- app_assoc. reflexivity.
Qed.

(** X16.  Starting [MultiplexingWatcher.stream] stores the two flags,
    marks the coordinator running and starts one worker for each registered
    Watcher; it touches no Watcher, no membership entry and no queued event.
    Starting it a second time starts a second worker for every member. *)
Theorem stream_begin_starts_members (manage quit : bool) (st : State) :
  let st' := stream_begin manage quit st in
  heap st' = heap st /\
  mux st' =
    {| _run := true;
       watchers := watchers (mux st);
       results_queue := results_queue (mux st);
       manage_resource_version := Some manage;
       quit_on_timeout := Some quit;
       started := started (mux st) ++ members st |} /\
  forall manage' quit',
    started (mux (stream_begin manage' quit' st'))
    = started (mux st) ++ members st ++ members st.
Proof.
  assert (forall m q s,
            heap (stream_begin m q s) = heap s /\
            mux (stream_begin m q s) =
              {| _run := true;
                 watchers := watchers (mux s);
                 results_queue := results_queue (mux s);
                 manage_resource_version := Some m;
                 quit_on_timeout := Some q;
                 started := started (mux s) ++ members s |}) as Hb.
  { intros m q s. unfold stream_begin.
    match goal with
    | |- context [foldl _ ?s0 ?l] => destruct (start_all l s0) as [-> ->]
    end.
    split; reflexivity. }
  intros st'. subst st'. destruct (Hb manage quit st) as [Hh Hm].
  split; [exact Hh|]. split; [exact Hm|].
  intros manage' quit'. destruct (Hb manage' quit' (stream_begin manage quit st))
    as [_ ->]. cbn [started]. rewrite Hm. cbn [started].
  unfold members. rewrite Hm. cbn [watchers]. rewrite <- app_assoc.
  reflexivity.
Qed.

End MoreMux.

(** ** More on the worker *)

Module MoreWorker.
Import Py Re Mux Stream Worker MuxFacts StreamFacts Examples.

(** X17.  Without a callback, a member whose [stream()] raises is stopped
    and removed without any call to a policy, and its worker ends; later
    passes are not used. *)
Theorem failure_without_callback (w : nat) (p : Pass) (rest : list Pass)
    (st : State) (e : PyExn) :
  let st0 := apply_ops (before p) st in
  let manage := flag (manage_resource_version (mux st0)) in
  let quit := flag (quit_on_timeout (mux st0)) in
  let r := Stream.stream (enqueue w) w manage quit (responses p) st0 in
  isrunning st0 = true ->
  outcome r = Raised e ->
  _run_watcher None w (p :: rest) st =
  (del_watcher w (on_watcher W.stop w (final r)),
   [CalledStream w manage quit; CalledDelWatcher w], Finished).
Proof.
  intros st0 manage quit r Hrun Hout.
  unfold _run_watcher. cbn [run_from negb]. fold st0. rewrite Hrun.
  cbn [negb]. unfold attempt. fold manage quit r. rewrite Hout.
  cbn [on_failure is_True negb]. rewrite watcher_same.
  cbn [W.isrunning W.stop W.set_run W._run].
  destruct rest; reflexivity.
Qed.

Lemma failure_without_callback_witness :
  (_run_watcher None 0 [failing_pass; idle_pass] streaming).1.2
  = [CalledStream 0 false false; CalledDelWatcher 0].
Proof.
  rewrite (failure_without_callback 0 failing_pass [idle_pass] streaming boom);
    [reflexivity|vm_compute; reflexivity..].
Defined.

Lemma put_facts (we : WatchEvent) (st : State) :
  heap (put we st) = heap st /\
  results_queue (mux (put we st)) = results_queue (mux st) ++ [we] /\
  isrunning (put we st) = isrunning st.
Proof. repeat split. Qed.

(** In a quiet transport every event yielded by the [for] loop is put on
    the queue, in order, while the coordinator is running. *)
Lemma pump_quiet w its st st' obs fe :
  quiet its = true -> isrunning st = true ->
  pump (enqueue w) w its st = (st', obs, fe) ->
  results_queue (mux st') = results_queue (mux st) ++ yielded obs /\
  isrunning st' = true.
Proof.
  revert st st' obs fe. induction its as [|[e ops|op] rest IH];
    intros st st' obs fe Hq Hrun; cbn [pump]; cbn [quiet forallb] in Hq.
  - intros [= <- <- <-]. cbn. rewrite app_nil_r. auto.
  - destruct ops; [|discriminate]. cbn [andb] in Hq. fold (quiet rest) in Hq.
    destruct (negb (W.isrunning (watcher st w)));
      [intros [= <- <- <-]; cbn; rewrite app_nil_r; auto|].
    destruct (event_version (raw_object e)) as [v|exn];
      [|intros [= <- <- <-]; cbn; rewrite app_nil_r; auto].
    set (st1 := if v >? W.highest_resource_version (watcher st w)
                then on_watcher (W.set_highest v) w st else st).
    assert (mux st1 = mux st) as Hm by (subst st1; destruct (v >? _); reflexivity).
    destruct (W.isrunning (watcher st1 w)) eqn:Hw; cbn [negb];
      [|intros [= <- <- <-]; cbn [yielded]; rewrite app_nil_r;
        unfold isrunning in *; rewrite Hm; auto].
    set (event := {| etype := raw_type e; obj := raw_object e |}).
    assert (isrunning st1 = true) as Hrun1
      by (unfold isrunning; rewrite Hm; exact Hrun).
    assert (enqueue w event st1 = put event st1) as Henq
      by (unfold enqueue; rewrite Hw, Hrun1; reflexivity).
    cbn [apply_ops foldl]. rewrite Henq.
    change (watcher (put event st1) w) with (watcher st1 w). rewrite Hw.
    cbn [negb].
    destruct (pump (enqueue w) w rest (put event st1)) as [[st3 o3] f3] eqn:E.
    intros [= <- <- <-].
    assert (isrunning (put event st1) = true) as Hrun2 by exact Hrun1.
    destruct (IH _ _ _ _ Hq Hrun2 E) as [H1 H2].
    split; [|exact H2]. rewrite H1. cbn [put on_mux mux set_queue
      results_queue yielded]. rewrite Hm, <- app_assoc. reflexivity.
  - discriminate.
Qed.

Lemma yielded_app (t1 t2 : list Obs) :
  yielded (t1 ++ t2) = yielded t1 ++ yielded t2.
Proof.
  induction t1 as [|[ph kw h|we] t1 IH]; cbn [yielded app]; [reflexivity|auto|].
  rewrite IH. reflexivity.
Qed.

Lemma on_exception_mux w manage exn st :
  match on_exception w manage exn st with
  | Continue st' | Stop st' _ => mux st' = mux st
  end.
Proof.
  unfold on_exception. destruct exn; try reflexivity.
  destruct (Z.eqb status 410 && manage)%bool; [|reflexivity].
  destruct (rvre_search reason); reflexivity.
Qed.

Lemma advance_mux w manage st st1 :
  advance w manage st = Ok st1 -> mux st1 = mux st.
Proof.
  unfold advance. destruct manage; [|intros [= <-]; reflexivity].
  destruct (W.current_resource_version (watcher st w));
    [|intros [= <-]; reflexivity].
  destruct (int s); [|discriminate].
  destruct (_ >? z); [|intros [= <-]; reflexivity].
  apply update_mux.
Qed.

Lemma round_quiet w manage quit r st obs nx :
  quiet (items r) = true -> isrunning st = true ->
  round (enqueue w) w manage quit r st = (obs, nx) ->
  match nx with
  | Continue st' | Stop st' _ =>
      results_queue (mux st') = results_queue (mux st) ++ yielded obs /\
      isrunning st' = true
  end.
Proof.
  intros Hq Hrun. unfold round.
  destruct (pump (enqueue w) w (items r) st) as [[st1 o] fe] eqn:E.
  intros [= <- <-]. destruct (pump_quiet _ _ _ _ _ _ Hq Hrun E) as [H1 H2].
  assert (forall exn, match on_exception w manage exn st1 with
                      | Continue st' | Stop st' _ =>
                          results_queue (mux st')
                          = results_queue (mux st) ++ yielded o /\
                          isrunning st' = true
                      end) as Hex.
  { intros exn. pose proof (on_exception_mux w manage exn st1) as H.
    unfold isrunning in *.
    destruct (on_exception w manage exn st1); rewrite H; auto. }
  assert (match on_timeout w quit st1 with
          | Continue st' | Stop st' _ =>
              results_queue (mux st') = results_queue (mux st) ++ yielded o /\
              isrunning st' = true
          end) as Hto.
  { unfold on_timeout. destruct (_ && quit)%bool; auto. }
  destruct fe; [destruct (ending r)|..]; first [exact Hto|apply Hex].
Qed.

Lemma loop_quiet w manage quit script st :
  Forall (fun r => quiet (items r) = true) script -> isrunning st = true ->
  let r := loop (enqueue w) w manage quit script st in
  results_queue (mux (final r)) = results_queue (mux st) ++ yielded (trace r).
Proof.
  intros Hq. revert st. induction Hq as [|r rest Hr Hrest IH]; intros st Hrun;
    cbn [loop]; destruct (negb (W.isrunning (watcher st w)));
    try (cbn; rewrite app_nil_r; reflexivity);
    destruct (advance w manage st) as [st1|exn] eqn:Ha;
    try (cbn; rewrite app_nil_r; reflexivity).
  - cbn. rewrite app_nil_r, (advance_mux _ _ _ _ Ha). reflexivity.
  - pose proof (advance_mux _ _ _ _ Ha) as Hm.
    assert (isrunning st1 = true) as Hrun1
      by (unfold isrunning; rewrite Hm; exact Hrun).
    destruct (round (enqueue w) w manage quit r st1) as [obs nx] eqn:Er.
    pose proof (round_quiet _ _ _ _ _ _ _ Hr Hrun1 Er) as Hnx.
    destruct nx as [st2|st2 out]; destruct Hnx as [H1 H2];
      cbn [final trace emit yielded app].
    + rewrite (IH _ H2), H1, Hm, yielded_app, app_assoc. reflexivity.
    + rewrite H1, Hm. reflexivity.
Qed.

Lemma prime_quiet w r st :
  quiet (items r) = true ->
  match prime w r st with
  | Continue st' | Stop st' _ => mux st' = mux st
  end.
Proof.
  intros Hq. unfold prime.
  assert (exists b, prime_pump (items r) st = (st, b)) as [b ->].
  { destruct (items r) as [|[e ops|op] its]; cbn [prime_pump]; eauto.
    discriminate. }
  destruct b; [reflexivity|].
  destruct (ending r) as [|[status reason| | | | |]]; try reflexivity.
  destruct (Z.eqb status 410 && _)%bool; [|reflexivity].
  destruct (rvre_search reason); reflexivity.
Qed.

(** X18.  During a call of the member's [stream()] in which no other
    thread acts, a running coordinator's worker puts every event the member
    yields on the shared queue, in the order yielded, behind what the queue
    already held. *)
Theorem worker_queues_in_yield_order w manage quit script st :
  Forall (fun r => quiet (items r) = true) script ->
  isrunning st = true ->
  let r := Stream.stream (enqueue w) w manage quit script st in
  results_queue (mux (final r)) = results_queue (mux st) ++ yielded (trace r).
Proof.
  intros Hq Hrun. unfold Stream.stream.
  set (st0 := on_watcher _ w (on_watcher W.start w st)).
  assert (mux st0 = mux st) as Hm by reflexivity.
  assert (isrunning st0 = true) as Hrun0 by exact Hrun.
  rewrite <- Hm. destruct (manage && _)%bool;
    [|apply loop_quiet; assumption].
  destruct Hq as [|r rest Hr Hrest]; [cbn; rewrite app_nil_r; reflexivity|].
  pose proof (prime_quiet w r st0 Hr) as Hp.
  destruct (prime w r st0) as [st1|st1 out];
    cbn [final trace emit yielded app].
  - rewrite <- Hp. apply loop_quiet; [exact Hrest|].
    unfold isrunning. rewrite Hp. exact Hrun0.
  - rewrite Hp, app_nil_r. reflexivity.
Qed.

Lemma worker_queues_in_yield_order_witness :
  results_queue
    (mux (final (Stream.stream (enqueue 0) 0 false false
                   [ {| items := [Ev (role_event "3") [];
                                  Ev (role_event "4") []];
                        ending := Fail boom |} ] streaming)))
  = [role_added "3"; role_added "4"].
Proof.
  rewrite (worker_queues_in_yield_order 0 false false _ streaming);
    [vm_compute; reflexivity| |reflexivity].
  repeat constructor.
Defined.

Lemma only_touches_refl w st : only_touches w st st.
Proof. repeat split. Qed.

Lemma only_touches_trans w st1 st2 st3 :
  only_touches w st1 st2 -> only_touches w st2 st3 -> only_touches w st1 st3.
Proof.
  intros (A1 & A2 & A3 & A4 & A5 & A6) (B1 & B2 & B3 & B4 & B5 & B6).
  repeat split; try congruence. intros w' Hw'. rewrite B6, A6; auto.
Qed.

Lemma only_touches_on_watcher (f : W.Watcher -> W.Watcher) w st :
  (forall x, W.cls (f x) = W.cls x) ->
  only_touches w st (on_watcher f w st).
Proof.
  intros Hf. repeat split.
  - rewrite watcher_same. apply Hf.
  - intros w' Hw'. rewrite watcher_on_watcher.
    destruct (decide (w = w')); [congruence|reflexivity].
Qed.

Lemma only_touches_put w we st : only_touches w st (put we st).
Proof. repeat split. Qed.

Lemma only_touches_update w g st :
  only_touches w st (on_watcher (W.set_resource_version g) w st).
Proof. apply only_touches_on_watcher. reflexivity. Qed.

Lemma pump_only_touches w its st st' obs fe :
  quiet its = true ->
  pump (enqueue w) w its st = (st', obs, fe) -> only_touches w st st'.
Proof.
  revert st st' obs fe. induction its as [|[e ops|op] rest IH];
    intros st st' obs fe Hq; cbn [pump]; cbn [quiet forallb] in Hq.
  - intros [= <- _ _]. apply only_touches_refl.
  - destruct ops; [|discriminate]. cbn [andb] in Hq. fold (quiet rest) in Hq.
    destruct (negb (W.isrunning (watcher st w)));
      [intros [= <- _ _]; apply only_touches_refl|].
    destruct (event_version (raw_object e)) as [v|exn];
      [|intros [= <- _ _]; apply only_touches_refl].
    set (st1 := if v >? W.highest_resource_version (watcher st w)
                then on_watcher (W.set_highest v) w st else st).
    assert (only_touches w st st1) as H1.
    { subst st1. destruct (v >? _); [|apply only_touches_refl].
      apply only_touches_on_watcher. reflexivity. }
    destruct (negb (W.isrunning (watcher st1 w)));
      [intros [= <- _ _]; exact H1|].
    set (event := {| etype := raw_type e; obj := raw_object e |}).
    cbn [apply_ops foldl].
    assert (only_touches w st (enqueue w event st1)) as H2.
    { unfold enqueue. destruct (_ && _)%bool; [|exact H1].
      eapply only_touches_trans; [exact H1|apply only_touches_put]. }
    destruct (negb (W.isrunning (watcher (enqueue w event st1) w)));
      [intros [= <- _ _]; exact H2|].
    destruct (pump (enqueue w) w rest (enqueue w event st1))
      as [[st3 o3] f3] eqn:E.
    intros [= <- _ _]. eapply only_touches_trans; [exact H2|].
    eapply IH; eauto.
  - discriminate.
Qed.

Lemma on_exception_only_touches w manage exn st :
  match on_exception w manage exn st with
  | Continue st' | Stop st' _ => only_touches w st st'
  end.
Proof.
  unfold on_exception. destruct exn; try apply only_touches_refl.
  destruct (Z.eqb status 410 && manage)%bool; [|apply only_touches_refl].
  destruct (rvre_search reason); [|apply only_touches_refl].
  rewrite update_str. apply only_touches_update.
Qed.

Lemma round_only_touches w manage quit r st obs nx :
  quiet (items r) = true ->
  round (enqueue w) w manage quit r st = (obs, nx) ->
  match nx with
  | Continue st' | Stop st' _ => only_touches w st st'
  end.
Proof.
  intros Hq. unfold round.
  destruct (pump (enqueue w) w (items r) st) as [[st1 o] fe] eqn:E.
  intros [= _ <-]. pose proof (pump_only_touches _ _ _ _ _ _ Hq E) as H1.
  assert (forall exn, match on_exception w manage exn st1 with
                      | Continue st' | Stop st' _ => only_touches w st st'
                      end) as Hex.
  { intros exn. pose proof (on_exception_only_touches w manage exn st1) as H.
    destruct (on_exception w manage exn st1);
      eapply only_touches_trans; eauto. }
  assert (match on_timeout w quit st1 with
          | Continue st' | Stop st' _ => only_touches w st st'
          end) as Hto.
  { unfold on_timeout. destruct (_ && quit)%bool; exact H1. }
  destruct fe; [destruct (ending r)|..]; first [exact Hto|apply Hex].
Qed.

Lemma advance_only_touches w manage st st1 :
  advance w manage st = Ok st1 -> only_touches w st st1.
Proof.
  unfold advance. destruct manage;
    [|intros [= <-]; apply only_touches_refl].
  destruct (W.current_resource_version (watcher st w));
    [|intros [= <-]; apply only_touches_refl].
  destruct (int s); [|discriminate].
  destruct (_ >? z); [|intros [= <-]; apply only_touches_refl].
  rewrite update_int. intros [= <-]. apply only_touches_update.
Qed.

Lemma loop_only_touches w manage quit script st :
  Forall (fun r => quiet (items r) = true) script ->
  only_touches w st (final (loop (enqueue w) w manage quit script st)).
Proof.
  intros Hq. revert st. induction Hq as [|r rest Hr Hrest IH]; intros st;
    cbn [loop]; destruct (negb (W.isrunning (watcher st w)));
    try apply only_touches_refl;
    destruct (advance w manage st) as [st1|exn] eqn:Ha;
    try apply only_touches_refl.
  - apply (advance_only_touches _ _ _ _ Ha).
  - pose proof (advance_only_touches _ _ _ _ Ha) as H1.
    destruct (round (enqueue w) w manage quit r st1) as [obs nx] eqn:Er.
    pose proof (round_only_touches _ _ _ _ _ _ _ Hr Er) as H2.
    destruct nx as [st2|st2 out]; cbn [final emit].
    + eapply only_touches_trans; [exact H1|].
      eapply only_touches_trans; [exact H2|apply IH].
    + eapply only_touches_trans; eauto.
Qed.

Lemma prime_only_touches w r st :
  quiet (items r) = true ->
  match prime w r st with
  | Continue st' | Stop st' _ => only_touches w st st'
  end.
Proof.
  intros Hq. unfold prime.
  assert (exists b, prime_pump (items r) st = (st, b)) as [b ->].
  { destruct (items r) as [|[e ops|op] its]; cbn [prime_pump]; eauto.
    discriminate. }
  destruct b; [apply only_touches_refl|].
  destruct (ending r) as [|[status reason| | | | |]];
    try apply only_touches_refl.
  destruct (Z.eqb status 410 && _)%bool; [|apply only_touches_refl].
  destruct (rvre_search reason); [|apply only_touches_refl].
  rewrite update_str. apply only_touches_update.
Qed.

Lemma stream_only_touches w manage quit script st :
  Forall (fun r => quiet (items r) = true) script ->
  only_touches w st
    (final (Stream.stream (enqueue w) w manage quit script st)).
Proof.
  intros Hq. unfold Stream.stream.
  set (st0 := on_watcher _ w (on_watcher W.start w st)).
  assert (only_touches w st st0) as H0.
  { subst st0. eapply only_touches_trans;
      apply only_touches_on_watcher; reflexivity. }
  destruct (manage && _)%bool;
    [|eapply only_touches_trans; [exact H0|apply loop_only_touches, Hq]].
  destruct Hq as [|r rest Hr Hrest]; [exact H0|].
  pose proof (prime_only_touches w r st0 Hr) as Hp.
  destruct (prime w r st0) as [st1|st1 out]; cbn [final emit].
  - eapply only_touches_trans; [exact H0|].
    eapply only_touches_trans; [exact Hp|apply loop_only_touches, Hrest].
  - eapply only_touches_trans; eauto.
Qed.

Lemma quiet_pass_spec (p : Pass) :
  quiet_pass p = true ->
  before p = [] /\ Forall (fun r => quiet (items r) = true) (responses p).
Proof.
  unfold quiet_pass. destruct (before p); [|discriminate].
  intros H. split; [reflexivity|].
  apply Forall_forall. intros r Hr.
  rewrite forallb_forall in H. apply H, list_elem_of_In, Hr.
Qed.

Lemma attempt_only_touches w script st st1 did :
  Forall (fun r => quiet (items r) = true) script ->
  attempt None w script st = Some (st1, did) -> only_touches w st st1.
Proof.
  intros Hq. unfold attempt.
  pose proof (stream_only_touches w
                (flag (manage_resource_version (mux st)))
                (flag (quit_on_timeout (mux st))) script st Hq) as Hs.
  set (r := Stream.stream _ _ _ _ _ _) in *.
  destruct (outcome r); [| |discriminate].
  - intros [= <- _].
    destruct (flag (quit_on_timeout (mux (final r)))); [|exact Hs].
    eapply only_touches_trans; [exact Hs|].
    apply only_touches_on_watcher. reflexivity.
  - cbn [on_failure is_True negb]. intros [= <- _].
    eapply only_touches_trans; [exact Hs|].
    apply only_touches_on_watcher. reflexivity.
Qed.

Lemma run_from_only_touches w b passes st st' did :
  Forall (fun p => quiet_pass p = true) passes ->
  run_from None w b passes st = (st', did, Finished) ->
  exists s, only_touches w st s /\ st' = del_watcher w s.
Proof.
  intros Hq. revert b st st' did.
  induction Hq as [|p rest Hp Hrest IH]; intros b st st' did;
    cbn [run_from]; destruct b; cbn [negb];
    try (intros [= <- _]; eexists; split;
         [apply only_touches_refl|reflexivity]);
    try discriminate.
  destruct (quiet_pass_spec p Hp) as [-> Hresp]. cbn [apply_ops foldl].
  destruct (negb (isrunning st));
    [intros [= <- _]; eexists; split; [apply only_touches_refl|reflexivity]|].
  destruct (attempt None w (responses p) st) as [[st1 d1]|] eqn:Ea;
    [|discriminate].
  destruct (run_from None w (W.isrunning (watcher st1 w)) rest st1)
    as [[st2 d2] x] eqn:E.
  intros [= <- _ ->]. destruct (IH _ _ _ _ E) as (s & Hs & ->).
  exists s. split; [|reflexivity].
  eapply only_touches_trans; [|exact Hs].
  apply (attempt_only_touches _ _ _ _ _ Hresp Ea).
Qed.

(** X20.  Member failures and endings are contained: when no other thread
    acts and no callback is set, a worker that has finished has removed
    exactly its member's kind from the membership and left the member
    stopped; every other membership entry and every other Watcher is as it
    was, and so is the coordinator's running flag. *)
Theorem worker_is_isolated w b passes st st' did :
  Forall (fun p => quiet_pass p = true) passes ->
  run_from None w b passes st = (st', did, Finished) ->
  watchers (mux st') = delete (key_of st w) (watchers (mux st)) /\
  (forall w', w' <> w -> watcher st' w' = watcher st w') /\
  W.isrunning (watcher st' w) = false /\
  isrunning st' = isrunning st.
Proof.
  intros Hq Hrun.
  destruct (run_from_only_touches _ _ _ _ _ _ Hq Hrun)
    as (s & (H1 & H2 & _ & _ & H5 & H6) & ->).
  assert (key_of s w = key_of st w) as Hk by (unfold key_of; rewrite H5; reflexivity).
  split; [|split; [|split]].
  - rewrite del_watcher_mux, Hk, H1. reflexivity.
  - intros w' Hw'. rewrite (watcher_heap _ _ w' (del_watcher_heap w s)).
    rewrite watcher_on_watcher. destruct (decide (w = w')); [congruence|].
    apply H6, Hw'.
  - rewrite (watcher_heap _ _ w (del_watcher_heap w s)), watcher_same.
    reflexivity.
  - rewrite <- H2. unfold isrunning. rewrite del_watcher_mux. reflexivity.
Qed.

Lemma worker_is_isolated_witness :
  watchers (mux (_run_watcher None 0 [failing_pass; idle_pass] streaming).1.1)
  = delete (key_of streaming 0) (watchers (mux streaming)) /\
  watcher (_run_watcher None 0 [failing_pass; idle_pass] streaming).1.1 2
  = watcher streaming 2.
Proof.
  set (r := _run_watcher None 0 [failing_pass; idle_pass] streaming).
  destruct (worker_is_isolated 0 true [failing_pass; idle_pass] streaming
              r.1.1 r.1.2) as (H1 & H2 & _).
  - repeat constructor.
  - subst r. unfold _run_watcher.
    destruct (run_from None 0 true [failing_pass; idle_pass] streaming)
      as [[s d] x] eqn:E.
    assert (x = Finished) as ->; [|reflexivity].
    change x with (s, d, x).2. rewrite <- E. vm_compute. reflexivity.
  - split; [exact H1|]. apply H2. discriminate.
Defined.

End MoreWorker.

(** ** Stopping the coordinator; the tables of watchable kinds *)

Module MoreStop.
Import Py Mux Worker MuxFacts Examples.

(** X21.  After [MultiplexingWatcher.stop()] the coordinator and every
    registered member report not running, and the merged sequence ends at
    its next look at the loop condition without yielding: events still in
    the queue stay there. *)
Theorem stop_ends_merged_sequence (st : State) :
  isrunning (stop st) = false /\
  (forall k w, watchers (mux st) !! k = Some w ->
               W.isrunning (watcher (stop st) w) = false) /\
  (forall script, consume script (stop st) = (stop st, [], MuxReturned)) /\
  results_queue (mux (stop st)) = results_queue (mux st).
Proof.
  pose proof (stop_mux st) as Hm. unfold isrunning. rewrite Hm.
  split; [reflexivity|]. split; [|split; [|reflexivity]].
  - intros k w Hk. unfold stop.
    destruct (stop_each (members st) (base_stop st)) as [_ ->].
    destruct (decide (w ∈ members st)) as [_|Hn]; [reflexivity|].
    exfalso. apply Hn, elem_of_members. eauto.
  - intros script.
    assert (poll (stop st) = (Stopped, stop st)) as Hp
      by (unfold poll, isrunning; rewrite Hm; reflexivity).
    destruct script; cbn [consume]; rewrite Hp; reflexivity.
Qed.

Lemma stop_ends_merged_sequence_witness :
  W.isrunning (watcher (stop (on_watcher W.start 0 streaming)) 0) = false.
Proof.
  destruct (stop_ends_merged_sequence (on_watcher W.start 0 streaming))
    as (_ & H & _).
  apply (H (W.cls_id Role)). vm_compute. reflexivity.
Defined.

End MoreStop.

Module WatchableFacts.
Import Watchables.

Lemma all_in (l l' : list string) :
  forallb (fun c => bool_decide (c ∈ l')) l = true ->
  forall c, c ∈ l -> c ∈ l'.
Proof.
  intros H c Hc. rewrite forallb_forall in H.
  apply list_elem_of_In in Hc. apply H in Hc.
  apply bool_decide_eq_true in Hc. exact Hc.
Qed.

Lemma all_paired (l : list string) :
  forallb (fun c => bool_decide (list_class c ∈ l)
                    || existsb (fun k => String.eqb c (list_class k)) l) l
  = true ->
  forall c, c ∈ l ->
            list_class c ∈ l \/ exists k, k ∈ l /\ c = list_class k.
Proof.
  intros H c Hc. rewrite forallb_forall in H.
  apply list_elem_of_In in Hc. apply H in Hc.
  apply orb_true_iff in Hc as [Hc|Hc].
  - left. apply bool_decide_eq_true in Hc. exact Hc.
  - right. apply existsb_exists in Hc as (k & Hk & He).
    exists k. split; [apply list_elem_of_In, Hk|].
    apply String.eqb_eq, He.
Qed.

(** X22.  In the model [rel_1_21.v1alpha1] every class that supports a
    namespaced watch also supports the watch without namespace; each of the
    two tables lists every kind together with its listing class, and lists
    no class twice. *)
Theorem namespaced_kinds_are_watchable :
  (forall c, c ∈ NamespacedWatchables -> c ∈ Watchables) /\
  (forall c, c ∈ Watchables ->
     list_class c ∈ Watchables \/
     exists k, k ∈ Watchables /\ c = list_class k) /\
  (forall c, c ∈ NamespacedWatchables ->
     list_class c ∈ NamespacedWatchables \/
     exists k, k ∈ NamespacedWatchables /\ c = list_class k) /\
  NoDup Watchables /\ NoDup NamespacedWatchables.
Proof.
  split; [apply all_in; vm_compute; reflexivity|].
  split; [apply all_paired; vm_compute; reflexivity|].
  split; [apply all_paired; vm_compute; reflexivity|].
  split; apply (bool_decide_unpack _); vm_compute; exact I.
Qed.

End WatchableFacts.
